(** * The PostgreSQL repositories of eschool-repository

    A shallow embedding of [postgres/user.go] and of the school, review and
    certificate repositories, over a small model of the SQL driver they
    call.  The repositories are stateless: every method is a function of
    the caller's context, its arguments and the state of the store. *)

From stdpp Require Import base option list strings gmap.
From Stdlib Require Import Ascii String.

Local Open Scope string_scope.

(** ** Identifiers and rows *)

(** [domain.ID] is a string-typed identifier. *)
Abbreviation ID := string.

(** A row of a relation: column names with their values, as text. *)
Definition Row := list (string * string).

Fixpoint col (c : string) (r : Row) : string :=
  match r with
  | [] => ""
  | (c', v) :: r' => if String.eqb c c' then v else col c r'
  end.

(** ** Errors *)

(** What the driver hands back as a Go [error]: [sql.ErrNoRows], a
    [*pgconn.PgError] with its SQLSTATE code, the two errors of a finished
    [context.Context], or anything else (a lost connection, say). *)
Inductive DriverErr :=
| ErrNoRows
| PgError (Code : string) (Message : string)
| Canceled
| DeadlineExceeded
| OtherErr (text : string).

(** [err.Error()] *)
Definition Error (e : DriverErr) : string :=
  match e with
  | ErrNoRows => "sql: no rows in result set"
  | PgError c m => "ERROR: " ++ m ++ " (SQLSTATE " ++ c ++ ")"
  | Canceled => "context canceled"
  | DeadlineExceeded => "context deadline exceeded"
  | OtherErr t => t
  end.

(** The sentinels of package [errs]. *)
Inductive Sentinel :=
| ErrNotExist
| ErrDuplicate
| ErrEnumValueError
| ErrUpdateFailed
| ErrDeleteFailed
| ErrPersistenceFailed.

(** An [error] a repository method returns: the driver's error as it came,
    or [errors.Wrap(sentinel, message)].  [errors.Wrap] keeps the sentinel as
    the cause and the message as text; the driver's error itself is not part
    of the wrapped value, only its text is. *)
Inductive GoError :=
| Raw (e : DriverErr)
| Wrap (cause : Sentinel) (message : string).

(** The domain kind of a returned error, when it has one. *)
Definition kind_of (e : GoError) : option Sentinel :=
  match e with
  | Raw _ => None
  | Wrap k _ => Some k
  end.

(** The two SQLSTATE codes the repositories compare against.  They are
    declared in another file of package [repository], so they are
    parameters here. *)
Class PgCodes := {
  PgUniqueViolationCode : string;
  PgEnumValueError : string;
}.

(** ** Statements *)

(** A condition [column = $k], with the placeholder as a 0-based index. *)
Definition Cond := (string * nat)%type.

(** A column qualified by a table alias, as in [st.teacher_id]. *)
Definition QCol := (string * string)%type.

Inductive Stmt :=
| SqlSelect (cols : list string) (tbl : string) (conds : list Cond)
| SqlExists (tbl : string) (conds : list Cond)
| SqlJoin (out : string)
    (t1 a1 t2 a2 : string) (on1 : QCol * QCol)
    (t3 a3 : string) (on2 : QCol * QCol) (cond : QCol * nat)
| SqlInsert (tbl : string) (cols : list string) (vals : list nat)
| SqlDelete (tbl : string) (conds : list Cond).

Definition is_space (c : ascii) : bool := Ascii.eqb c " "%char.

Fixpoint words_from (acc : string) (s : string) : list string :=
  match s with
  | EmptyString => if String.eqb acc "" then [] else [acc]
  | String c s' =>
      if is_space c
      then (if String.eqb acc "" then words_from "" s'
            else acc :: words_from "" s')
      else words_from (acc ++ String c "") s'
  end.

Definition words (s : string) : list string := words_from "" s.

(** Drops parentheses and commas from a token. *)
Fixpoint strip (s : string) : string :=
  match s with
  | EmptyString => ""
  | String c s' =>
      if Ascii.eqb c "("%char || Ascii.eqb c ")"%char || Ascii.eqb c ","%char
      then strip s' else String c (strip s')
  end.

(** [$1] .. [$9] *)
Definition placeholder (s : string) : option nat :=
  match strip s with
  | String d (String k EmptyString) =>
      let n := nat_of_ascii k in
      if Ascii.eqb d "$"%char && Nat.leb 49 n && Nat.leb n 57
      then Some (n - 49) else None
  | _ => None
  end.

Fixpoint parse_conds (fuel : nat) (ts : list string) : option (list Cond) :=
  match fuel with
  | O => None
  | S fuel' =>
      match ts with
      | c :: eq :: p :: rest =>
          if String.eqb eq "="
          then match placeholder p with
               | Some k =>
                   match rest with
                   | [] => Some [(c, k)]
                   | kw :: rest' =>
                       if String.eqb kw "AND"
                       then option_map (cons (c, k)) (parse_conds fuel' rest')
                       else None
                   end
               | None => None
               end
          else None
      | _ => None
      end
  end.

Definition parse_where (ts : list string) : option (list Cond) :=
  match ts with
  | [] => Some []
  | w :: ts' =>
      if String.eqb w "WHERE" then parse_conds (List.length ts') ts' else None
  end.

(** Splits the tokens at the first occurrence of [kw]. *)
Fixpoint split_at (kw : string) (ts : list string)
  : option (list string * list string) :=
  match ts with
  | [] => None
  | t :: ts' =>
      if String.eqb t kw then Some ([], ts')
      else option_map (fun '(l, r) => (t :: l, r)) (split_at kw ts')
  end.

(** [alias.column] *)
Fixpoint qualified_from (acc : string) (s : string) : option QCol :=
  match s with
  | EmptyString => None
  | String c s' =>
      if Ascii.eqb c "."%char then Some (acc, s')
      else qualified_from (acc ++ String c "") s'
  end.

Definition qualified (s : string) : option QCol := qualified_from "" s.

Definition parse_on (l e r : string) : option (QCol * QCol) :=
  if String.eqb e "="
  then match qualified l, qualified r with
       | Some ql, Some qr => Some (ql, qr)
       | _, _ => None
       end
  else None.

Definition parse_join (proj : list string) (ts : list string) : option Stmt :=
  match proj, ts with
  | [p],
    [t1; a1; j1; t2; a2; o1; l1; e1; r1;
     j2; t3; a3; o2; l2; e2; r2; w; c; e3; ph] =>
      if String.eqb j1 "JOIN" && String.eqb j2 "JOIN"
         && String.eqb o1 "on" && String.eqb o2 "on"
         && String.eqb w "WHERE" && String.eqb e3 "="
      then match qualified p, parse_on l1 e1 r1, parse_on l2 e2 r2,
                 qualified c, placeholder ph with
           | Some (out, star), Some on1, Some on2, Some qc, Some k =>
               if String.eqb star "*"
               then Some (SqlJoin out t1 a1 t2 a2 on1 t3 a3 on2 (qc, k))
               else None
           | _, _, _, _, _ => None
           end
      else None
  | _, _ => None
  end.

Definition parse_select (ts : list string) : option Stmt :=
  match ts with
  | e :: s :: one :: f :: tbl :: rest =>
      if String.eqb e "EXISTS" && String.eqb s "(SELECT"
         && String.eqb one "1" && String.eqb f "FROM"
      then option_map (SqlExists tbl) (parse_where rest)
      else match split_at "FROM" ts with
           | Some (proj, t :: rest') =>
               match parse_where rest' with
               | Some conds => Some (SqlSelect (map strip proj) t conds)
               | None => parse_join proj (t :: rest')
               end
           | _ => None
           end
  | _ =>
      match split_at "FROM" ts with
      | Some (proj, [t]) => Some (SqlSelect (map strip proj) t [])
      | _ => None
      end
  end.

Fixpoint placeholders (ts : list string) : option (list nat) :=
  match ts with
  | [] => Some []
  | t :: ts' =>
      match placeholder t, placeholders ts' with
      | Some k, Some ks => Some (k :: ks)
      | _, _ => None
      end
  end.

Definition parse_insert (ts : list string) : option Stmt :=
  match ts with
  | into :: tbl :: rest =>
      if String.eqb into "INTO"
      then match split_at "VALUES" rest with
           | Some (cols, vals) =>
               option_map (SqlInsert tbl (map strip cols)) (placeholders vals)
           | None => None
           end
      else None
  | _ => None
  end.

Definition parse_delete (ts : list string) : option Stmt :=
  match ts with
  | from :: tbl :: rest =>
      if String.eqb from "FROM"
      then option_map (SqlDelete tbl) (parse_where rest)
      else None
  | _ => None
  end.

(** The statement a query text denotes, for the shapes of text the
    repositories send. *)
Definition parse (q : string) : option Stmt :=
  match words q with
  | verb :: ts =>
      if String.eqb verb "SELECT" then parse_select ts
      else if String.eqb verb "INSERT" then parse_insert ts
      else if String.eqb verb "DELETE" then parse_delete ts
      else None
  | [] => None
  end.

(** ** The store *)

(** The relations of the store, by name. *)
Abbreviation Tables := (gmap string (list Row)).

Definition rows_of (t : Tables) (tbl : string) : list Row :=
  default [] (t !! tbl).

Definition arg (k : nat) (args : list string) : string := nth k args "".

Definition holds (conds : list Cond) (args : list string) (r : Row) : bool :=
  forallb (fun '(c, k) => String.eqb (col c r) (arg k args)) conds.

Definition pick (cols : list string) (r : Row) : Row :=
  map (fun c => (c, col c r)) cols.

Definition project (cols : list string) (r : Row) : Row :=
  match cols with
  | [c] => if String.eqb c "*" then r else pick cols r
  | _ => pick cols r
  end.

(** Modelled from the spec: the schema of the store is kept with the
    migrations.  Each relation's primary key is the entity's [id]; the join
    relation [school_teacher] has no identity of its own and holds a
    membership at most once. *)
Definition primary_key (tbl : string) : list string :=
  if String.eqb tbl "public.school_teacher"
  then ["teacher_id"; "school_id"] else ["id"].

Definition same_key (key : list string) (r1 r2 : Row) : bool :=
  forallb (fun c => String.eqb (col c r1) (col c r2)) key.

Definition unique_violation {codes : PgCodes} : DriverErr :=
  PgError PgUniqueViolationCode
    "duplicate key value violates unique constraint".

Definition insert_row {codes : PgCodes} (tbl : string) (r : Row) (t : Tables)
  : option DriverErr * Tables :=
  if existsb (same_key (primary_key tbl) r) (rows_of t tbl)
  then (Some unique_violation, t)
  else (None, <[tbl := (rows_of t tbl ++ [r])%list]> t).

Definition delete_rows (tbl : string) (conds : list Cond)
  (args : list string) (t : Tables) : Tables :=
  alter (List.filter (fun r => negb (holds conds args r))) tbl t.

Fixpoint env_row (a : string) (env : list (string * Row)) : Row :=
  match env with
  | [] => []
  | (a', r) :: env' => if String.eqb a a' then r else env_row a env'
  end.

Definition qval (env : list (string * Row)) (q : QCol) : string :=
  col (snd q) (env_row (fst q) env).

Definition join (t : Tables) (out t1 a1 t2 a2 : string) (on1 : QCol * QCol)
  (t3 a3 : string) (on2 : QCol * QCol) (cond : QCol * nat)
  (args : list string) : list Row :=
  flat_map (fun r1 =>
    flat_map (fun r2 =>
      flat_map (fun r3 =>
        let env := [(a1, r1); (a2, r2); (a3, r3)] in
        if String.eqb (qval env (fst on1)) (qval env (snd on1))
           && String.eqb (qval env (fst on2)) (qval env (snd on2))
           && String.eqb (qval env (fst cond)) (arg (snd cond) args)
        then [env_row out env] else [])
      (rows_of t t3))
    (rows_of t t2))
  (rows_of t t1).

Definition run_stmt {codes : PgCodes} (st : Stmt) (args : list string)
  (t : Tables) : (list Row + DriverErr) * Tables :=
  match st with
  | SqlSelect cols tbl conds =>
      (inl (map (project cols)
              (List.filter (holds conds args) (rows_of t tbl))), t)
  | SqlExists tbl conds =>
      (inl [[("exists",
              if existsb (holds conds args) (rows_of t tbl)
              then "true" else "false")]], t)
  | SqlJoin out t1 a1 t2 a2 on1 t3 a3 on2 cond =>
      (inl (join t out t1 a1 t2 a2 on1 t3 a3 on2 cond args), t)
  | SqlInsert tbl cols vals =>
      let r := combine cols (map (fun k => arg k args) vals) in
      match insert_row tbl r t with
      | (Some e, t') => (inr e, t')
      | (None, t') => (inl [], t')
      end
  | SqlDelete tbl conds => (inl [], delete_rows tbl conds args t)
  end.

(** Statements with named parameters, bound from the fields of a row. *)
Inductive NamedQuery :=
| NamedInsert (tbl : string) (cols : list string)
| NamedUpdate (tbl : string) (cols : list string) (key : string).

(** Modelled from the spec: the statement builder [entity.InsertQueryString]
    lives in package [entity].  The INSERT binds every column of the row
    to a named parameter; the relation is the one the fixed statements
    read, [public.<name>]. *)
Definition InsertQueryString (r : Row) (tableName : string) : NamedQuery :=
  NamedInsert ("public." ++ tableName) (map fst r).

(** Modelled from the spec: the statement builder [entity.UpdateQueryString]
    lives in package [entity].  The UPDATE binds every non-key column of
    the row to a named parameter, with the key column [id] as the WHERE
    predicate. *)
Definition UpdateQueryString (r : Row) (tableName : string) : NamedQuery :=
  NamedUpdate ("public." ++ tableName)
    (List.filter (fun c => negb (String.eqb c "id")) (map fst r)) "id".

Definition set_cols (cols : list string) (r old : Row) : Row :=
  map (fun '(c, v) => (c, if existsb (String.eqb c) cols then col c r else v))
    old.

Definition update_rows (tbl : string) (cols : list string) (key : string)
  (r : Row) (t : Tables) : Tables :=
  alter (map (fun old => if String.eqb (col key old) (col key r)
                         then set_cols cols r old else old)) tbl t.

Definition run_named {codes : PgCodes} (q : NamedQuery) (r : Row) (t : Tables)
  : (list Row + DriverErr) * Tables :=
  match q with
  | NamedInsert tbl cols =>
      match insert_row tbl (pick cols r) t with
      | (Some e, t') => (inr e, t')
      | (None, t') => (inl [], t')
      end
  | NamedUpdate tbl cols key => (inl [], update_rows tbl cols key r t)
  end.

(** ** The driver *)

(** The state a call runs against: the relations, and what the environment
    does to the driver calls to come, one entry per call ([Some e]: the call
    fails with [e] before it reaches the store). *)
Record World := {
  tables : Tables;
  faults : list (option DriverErr);
}.

(** The caller's [context.Context], by what [ctx.Err()] reports. *)
Inductive Context :=
| Live
| CancelledCtx
| ExpiredCtx.

Definition ctxErr (ctx : Context) : option DriverErr :=
  match ctx with
  | Live => None
  | CancelledCtx => Some Canceled
  | ExpiredCtx => Some DeadlineExceeded
  end.

(** Computations over the world. *)
Definition M (A : Type) : Type := World -> A * World.

Definition ret {A} (a : A) : M A := fun w => (a, w).

Definition bind {A B} (m : M A) (k : A -> M B) : M B :=
  fun w => let '(a, w') := m w in k a w'.

Notation "'do' x <- m ; k" := (bind m (fun x => k))
  (at level 10, x name, m at level 100, k at level 200).

Definition syntax_error : DriverErr :=
  PgError "42601" "syntax error".

(** One call of the driver: a finished context fails it with the context's
    error, a fault of the environment fails it with that error, and
    otherwise the statement runs on the store. *)
Definition driver_call {A} (ctx : Context)
  (run : Tables -> (A + DriverErr) * Tables) : M (A + DriverErr) :=
  fun w =>
    match ctxErr ctx with
    | Some e => (inr e, w)
    | None =>
        match faults w with
        | Some e :: fs => (inr e, {| tables := tables w; faults := fs |})
        | _ =>
            let '(r, t') := run (tables w) in
            (r, {| tables := t'; faults := tail (faults w) |})
        end
    end.

Definition run_query {codes : PgCodes} (q : string) (args : list string)
  (t : Tables) : (list Row + DriverErr) * Tables :=
  match parse q with
  | Some st => run_stmt st args t
  | None => (inr syntax_error, t)
  end.

Definition first_row (rs : list Row) : Row + DriverErr :=
  match rs with
  | [] => inr ErrNoRows
  | r :: _ => inl r
  end.

(** [db.GetContext(ctx, &dest, query, args...)]: the first row of the
    result, [sql.ErrNoRows] when there is none. *)
Definition GetContext {codes : PgCodes} (ctx : Context) (q : string)
  (args : list string) : M (Row + DriverErr) :=
  driver_call ctx (fun t =>
    match run_query q args t with
    | (inl rs, t') => (first_row rs, t')
    | (inr e, t') => (inr e, t')
    end).

(** [db.SelectContext(ctx, &dest, query, args...)]: every row. *)
Definition SelectContext {codes : PgCodes} (ctx : Context) (q : string)
  (args : list string) : M (list Row + DriverErr) :=
  driver_call ctx (run_query q args).

Definition err_of {A} (r : A + DriverErr) : option DriverErr :=
  match r with
  | inl _ => None
  | inr e => Some e
  end.

(** [_, err := db.ExecContext(ctx, query, args...)] *)
Definition ExecContext {codes : PgCodes} (ctx : Context) (q : string)
  (args : list string) : M (option DriverErr) :=
  do r <- driver_call ctx (run_query q args); ret (err_of r).

(** [_, err := db.NamedExecContext(ctx, query, arg)] *)
Definition NamedExecContext {codes : PgCodes} (ctx : Context) (q : NamedQuery)
  (r : Row) : M (option DriverErr) :=
  do res <- driver_call ctx (run_named q r); ret (err_of res).

(** ** Entities *)

(** The mapping between a domain entity and its row.  The domain types are
    those of the core package and the mapping is package [entity], so a
    repository is stated over any mapping: [zero] is the zero value
    [domain.X{}], [entID] the entity's [ID] field, [NewPg] is
    [entity.NewPgX] and [ToDomain] the method of that name. *)
Class RowSchema (E : Type) := {
  zero : E;
  entID : E -> ID;
  NewPg : E -> Row;
  ToDomain : Row -> E;
}.

(** [err == sql.ErrNoRows] *)
Definition isErrNoRows (err : DriverErr) : bool :=
  match err with
  | ErrNoRows => true
  | _ => false
  end.

(** [errors.As(err, &pgErr)], giving [pgErr.Code] *)
Definition asPgError (err : DriverErr) : option string :=
  match err with
  | PgError code _ => Some code
  | _ => None
  end.

(** [port.UserInfo] *)
Record UserInfo := {
  Name : string;
  Surname : string;
}.

(** ** The user repository: [postgres/user.go] *)

Module PostgresUserRepo.
Section Repo.
Context {codes : PgCodes} {User : Type} {userSchema : RowSchema User}.

Definition userFindAllQuery := "SELECT * FROM public.user".
Definition userFindByIDQuery := "SELECT * FROM public.user WHERE id = $1".
Definition userFindByEmailQuery :=
  "SELECT * FROM public.user WHERE email = $1".
Definition userFindByCredentialsQuery :=
  "SELECT * FROM public.user WHERE email = $1 AND password = $2".
Definition userFindUserInfoQuery :=
  "SELECT name, surname FROM public.user WHERE id = $1".
Definition userDeleteQuery := "DELETE FROM public.user WHERE id = $1".

Definition FindAll (ctx : Context) : M (list User * option GoError) :=
  do r <- SelectContext ctx userFindAllQuery [];
  match r with
  | inr err =>
      if isErrNoRows err
      then ret ([], Some (Wrap ErrNotExist (Error err)))
      else ret ([], Some (Wrap ErrPersistenceFailed (Error err)))
  | inl pgUsers => ret (map ToDomain pgUsers, None)
  end.

Definition FindByID (ctx : Context) (userID : ID)
  : M (User * option GoError) :=
  do r <- GetContext ctx userFindByIDQuery [userID];
  match r with
  | inr err =>
      if isErrNoRows err
      then ret (zero, Some (Wrap ErrNotExist (Error err)))
      else ret (zero, Some (Wrap ErrPersistenceFailed (Error err)))
  | inl pgUser => ret (ToDomain pgUser, None)
  end.

Definition FindByEmail (ctx : Context) (email : string)
  : M (User * option GoError) :=
  do r <- GetContext ctx userFindByEmailQuery [email];
  match r with
  | inr err =>
      if isErrNoRows err
      then ret (zero, Some (Wrap ErrNotExist (Error err)))
      else ret (zero, Some (Wrap ErrPersistenceFailed (Error err)))
  | inl pgUser => ret (ToDomain pgUser, None)
  end.

Definition FindByCredentials (ctx : Context) (email password : string)
  : M (User * option GoError) :=
  do r <- GetContext ctx userFindByCredentialsQuery [email; password];
  match r with
  | inr err =>
      if isErrNoRows err
      then ret (zero, Some (Wrap ErrNotExist (Error err)))
      else ret (zero, Some (Wrap ErrPersistenceFailed (Error err)))
  | inl pgUser => ret (ToDomain pgUser, None)
  end.

Definition FindUserInfo (ctx : Context) (userID : ID)
  : M (UserInfo * option GoError) :=
  do r <- GetContext ctx userFindUserInfoQuery [userID];
  match r with
  | inr err =>
      if isErrNoRows err
      then ret ({| Name := ""; Surname := "" |},
                Some (Wrap ErrNotExist (Error err)))
      else ret ({| Name := ""; Surname := "" |},
                Some (Wrap ErrPersistenceFailed (Error err)))
  | inl pgUser =>
      ret ({| Name := col "name" pgUser; Surname := col "surname" pgUser |},
           None)
  end.

Definition Create (ctx : Context) (user : User)
  : M (User * option GoError) :=
  let pgUser := NewPg user in
  let queryString := InsertQueryString pgUser "user" in
  do err <- NamedExecContext ctx queryString pgUser;
  match err with
  | Some err =>
      match asPgError err with
      | Some code =>
          if String.eqb code PgUniqueViolationCode
          then ret (zero, Some (Wrap ErrDuplicate (Error err)))
          else ret (zero, Some (Wrap ErrPersistenceFailed (Error err)))
      | None => ret (zero, Some (Wrap ErrPersistenceFailed (Error err)))
      end
  | None =>
      do r <- GetContext ctx userFindByIDQuery [col "id" pgUser];
      match r with
      | inr err =>
          if isErrNoRows err
          then ret (zero, Some (Wrap ErrNotExist (Error err)))
          else ret (zero, Some (Wrap ErrPersistenceFailed (Error err)))
      | inl createdUser => ret (ToDomain createdUser, None)
      end
  end.

Definition Update (ctx : Context) (user : User)
  : M (User * option GoError) :=
  let pgUser := NewPg user in
  let queryString := UpdateQueryString pgUser "user" in
  do err <- NamedExecContext ctx queryString pgUser;
  match err with
  | Some err => ret (zero, Some (Wrap ErrUpdateFailed (Error err)))
  | None =>
      do r <- GetContext ctx userFindByIDQuery [col "id" pgUser];
      match r with
      | inr err =>
          if isErrNoRows err
          then ret (zero, Some (Wrap ErrNotExist (Error err)))
          else ret (zero, Some (Wrap ErrPersistenceFailed (Error err)))
      | inl updatedUser => ret (ToDomain updatedUser, None)
      end
  end.

Definition Delete (ctx : Context) (userID : ID) : M (option GoError) :=
  do err <- ExecContext ctx userDeleteQuery [userID];
  match err with
  | Some err => ret (Some (Wrap ErrDeleteFailed (Error err)))
  | None => ret None
  end.
End Repo.
End PostgresUserRepo.

(** ** The school repository *)

Module PostgresSchoolRepo.
Section Repo.
Context {codes : PgCodes} {School Course User : Type}
  {schoolSchema : RowSchema School} {courseSchema : RowSchema Course}
  {userSchema : RowSchema User}.

Definition schoolFindAllQuery := "SELECT * FROM public.school".
Definition schoolFindByIDQuery :=
  "SELECT * FROM public.school WHERE id = $1".
Definition schoolFindUserSchoolsQuery :=
  "SELECT * FROM public.school WHERE owner_id = $1".
Definition schoolFindSchoolCoursesQuery :=
  "SELECT * FROM public.course WHERE school_id = $1".
Definition schoolFindSchoolTeachersQuery :=
  "SELECT u.* FROM public.user u " ++
  "JOIN public.school_teacher st on u.id = st.teacher_id " ++
  "JOIN public.school s on st.school_id = s.id WHERE s.id = $1".
Definition schoolContainsTeacherQuery :=
  "SELECT EXISTS (SELECT 1 FROM public.school_teacher " ++
  "WHERE school_id = $1 AND teacher_id = $2)".
Definition schoolAddTeacherQuery :=
  "INSERT INTO public.school_teacher (teacher_id, school_id) " ++
  "VALUES ($1, $2)".
Definition schoolDeleteQuery := "DELETE FROM public.school WHERE id = $1".

Definition FindAll (ctx : Context) : M (list School * option GoError) :=
  do r <- SelectContext ctx schoolFindAllQuery [];
  match r with
  | inr err =>
      if isErrNoRows err
      then ret ([], Some (Wrap ErrNotExist (Error err)))
      else ret ([], Some (Wrap ErrPersistenceFailed (Error err)))
  | inl pgSchools => ret (map ToDomain pgSchools, None)
  end.

Definition FindByID (ctx : Context) (schoolID : ID)
  : M (School * option GoError) :=
  do r <- GetContext ctx schoolFindByIDQuery [schoolID];
  match r with
  | inr err =>
      if isErrNoRows err
      then ret (zero, Some (Wrap ErrNotExist (Error err)))
      else ret (zero, Some (Wrap ErrPersistenceFailed (Error err)))
  | inl pgSchool => ret (ToDomain pgSchool, None)
  end.

Definition FindUserSchools (ctx : Context) (userID : ID)
  : M (list School * option GoError) :=
  do r <- SelectContext ctx schoolFindUserSchoolsQuery [userID];
  match r with
  | inr err =>
      if isErrNoRows err
      then ret ([], Some (Wrap ErrNotExist (Error err)))
      else ret ([], Some (Wrap ErrPersistenceFailed (Error err)))
  | inl pgSchools => ret (map ToDomain pgSchools, None)
  end.

Definition FindSchoolCourses (ctx : Context) (schoolID : ID)
  : M (list Course * option GoError) :=
  do r <- SelectContext ctx schoolFindSchoolCoursesQuery [schoolID];
  match r with
  | inr err =>
      if isErrNoRows err
      then ret ([], Some (Wrap ErrNotExist (Error err)))
      else ret ([], Some (Wrap ErrPersistenceFailed (Error err)))
  | inl pgCourses => ret (map ToDomain pgCourses, None)
  end.

Definition FindSchoolTeachers (ctx : Context) (schoolID : ID)
  : M (list User * option GoError) :=
  do r <- SelectContext ctx schoolFindSchoolTeachersQuery [schoolID];
  match r with
  | inr err =>
      if isErrNoRows err
      then ret ([], Some (Wrap ErrNotExist (Error err)))
      else ret ([], Some (Wrap ErrPersistenceFailed (Error err)))
  | inl pgUsers => ret (map ToDomain pgUsers, None)
  end.

Definition IsSchoolTeacher (ctx : Context) (schoolID teacherID : ID)
  : M (bool * option GoError) :=
  do r <- GetContext ctx schoolContainsTeacherQuery [schoolID; teacherID];
  match r with
  | inr err => ret (false, Some (Raw err))
  | inl row => ret (String.eqb (col "exists" row) "true", None)
  end.

Definition AddSchoolTeacher (ctx : Context) (schoolID teacherID : ID)
  : M (option GoError) :=
  do err <- ExecContext ctx schoolAddTeacherQuery [teacherID; schoolID];
  match err with
  | Some err =>
      match asPgError err with
      | Some code =>
          if String.eqb code PgUniqueViolationCode
          then ret (Some (Wrap ErrDuplicate (Error err)))
          else ret (Some (Wrap ErrPersistenceFailed (Error err)))
      | None => ret (Some (Wrap ErrPersistenceFailed (Error err)))
      end
  | None => ret None
  end.

Definition Create (ctx : Context) (school : School)
  : M (School * option GoError) :=
  let pgSchool := NewPg school in
  let queryString := InsertQueryString pgSchool "school" in
  do err <- NamedExecContext ctx queryString pgSchool;
  match err with
  | Some err =>
      match asPgError err with
      | Some code =>
          if String.eqb code PgUniqueViolationCode
          then ret (zero, Some (Wrap ErrDuplicate (Error err)))
          else ret (zero, Some (Wrap ErrPersistenceFailed (Error err)))
      | None => ret (zero, Some (Wrap ErrPersistenceFailed (Error err)))
      end
  | None =>
      do r <- GetContext ctx schoolFindByIDQuery [col "id" pgSchool];
      match r with
      | inr err =>
          if isErrNoRows err
          then ret (zero, Some (Wrap ErrNotExist (Error err)))
          else ret (zero, Some (Wrap ErrPersistenceFailed (Error err)))
      | inl createdSchool => ret (ToDomain createdSchool, None)
      end
  end.

Definition Update (ctx : Context) (school : School)
  : M (School * option GoError) :=
  let pgSchool := NewPg school in
  let queryString := UpdateQueryString pgSchool "school" in
  do err <- NamedExecContext ctx queryString pgSchool;
  match err with
  | Some err => ret (zero, Some (Wrap ErrUpdateFailed (Error err)))
  | None =>
      do r <- GetContext ctx schoolFindByIDQuery [col "id" pgSchool];
      match r with
      | inr err =>
          if isErrNoRows err
          then ret (zero, Some (Wrap ErrNotExist (Error err)))
          else ret (zero, Some (Wrap ErrPersistenceFailed (Error err)))
      | inl updatedSchool => ret (ToDomain updatedSchool, None)
      end
  end.

Definition Delete (ctx : Context) (schoolID : ID) : M (option GoError) :=
  do err <- ExecContext ctx schoolDeleteQuery [schoolID];
  match err with
  | Some err => ret (Some (Wrap ErrDeleteFailed (Error err)))
  | None => ret None
  end.
End Repo.
End PostgresSchoolRepo.

(** ** The review repository *)

Module PostgresReviewRepo.
Section Repo.
Context {codes : PgCodes} {Review : Type} {reviewSchema : RowSchema Review}.

Definition reviewFindAllQuery := "SELECT * FROM public.review".
Definition reviewFindByIDQuery :=
  "SELECT * FROM public.review WHERE id = $1".
Definition reviewFindUserReviewsQuery :=
  "SELECT * FROM public.review WHERE user_id = $1".
Definition reviewFindCourseReviewsQuery :=
  "SELECT * FROM public.review WHERE course_id = $1".
Definition reviewDeleteQuery := "DELETE FROM public.school WHERE id = $1".

Definition FindAll (ctx : Context) : M (list Review * option GoError) :=
  do r <- SelectContext ctx reviewFindAllQuery [];
  match r with
  | inr err =>
      if isErrNoRows err
      then ret ([], Some (Wrap ErrNotExist (Error err)))
      else ret ([], Some (Wrap ErrPersistenceFailed (Error err)))
  | inl pgReviews => ret (map ToDomain pgReviews, None)
  end.

Definition FindByID (ctx : Context) (reviewID : ID)
  : M (Review * option GoError) :=
  do r <- GetContext ctx reviewFindByIDQuery [reviewID];
  match r with
  | inr err =>
      if isErrNoRows err
      then ret (zero, Some (Wrap ErrNotExist (Error err)))
      else ret (zero, Some (Wrap ErrPersistenceFailed (Error err)))
  | inl pgReview => ret (ToDomain pgReview, None)
  end.

Definition FindUserReviews (ctx : Context) (userID : ID)
  : M (list Review * option GoError) :=
  do r <- SelectContext ctx reviewFindUserReviewsQuery [userID];
  match r with
  | inr err =>
      if isErrNoRows err
      then ret ([], Some (Wrap ErrNotExist (Error err)))
      else ret ([], Some (Wrap ErrPersistenceFailed (Error err)))
  | inl pgReviews => ret (map ToDomain pgReviews, None)
  end.

Definition FindCourseReviews (ctx : Context) (courseID : ID)
  : M (list Review * option GoError) :=
  do r <- SelectContext ctx reviewFindCourseReviewsQuery [courseID];
  match r with
  | inr err =>
      if isErrNoRows err
      then ret ([], Some (Wrap ErrNotExist (Error err)))
      else ret ([], Some (Wrap ErrPersistenceFailed (Error err)))
  | inl pgReviews => ret (map ToDomain pgReviews, None)
  end.

Definition Create (ctx : Context) (review : Review)
  : M (Review * option GoError) :=
  let pgReview := NewPg review in
  let queryString := InsertQueryString pgReview "review" in
  do err <- NamedExecContext ctx queryString pgReview;
  match err with
  | Some err =>
      match asPgError err with
      | Some code =>
          if String.eqb code PgUniqueViolationCode
          then ret (zero, Some (Wrap ErrDuplicate (Error err)))
          else ret (zero, Some (Wrap ErrPersistenceFailed (Error err)))
      | None => ret (zero, Some (Wrap ErrPersistenceFailed (Error err)))
      end
  | None =>
      do r <- GetContext ctx reviewFindByIDQuery [col "id" pgReview];
      match r with
      | inr err =>
          if isErrNoRows err
          then ret (zero, Some (Wrap ErrNotExist (Error err)))
          else ret (zero, Some (Wrap ErrPersistenceFailed (Error err)))
      | inl createdReview => ret (ToDomain createdReview, None)
      end
  end.

Definition Delete (ctx : Context) (reviewID : ID) : M (option GoError) :=
  do err <- ExecContext ctx reviewDeleteQuery [reviewID];
  match err with
  | Some err => ret (Some (Wrap ErrDeleteFailed (Error err)))
  | None => ret None
  end.
End Repo.
End PostgresReviewRepo.

(** ** The certificate repository *)

Module PostgresCertificateRepo.
Section Repo.
Context {codes : PgCodes} {Certificate : Type}
  {certificateSchema : RowSchema Certificate}.

Definition certificateFindAllQuery := "SELECT * FROM public.certificate".
Definition certificateFindByIDQuery :=
  "SELECT * FROM public.certificate WHERE id = $1".
Definition certificateFindByCourseAndUserIDQuery :=
  "SELECT * FROM public.certificate WHERE course_id = $1 AND user_id = $2".
Definition certificateFindUserCertificatesQuery :=
  "SELECT * FROM public.certificate WHERE user_id = $1".

Definition FindAll (ctx : Context)
  : M (list Certificate * option GoError) :=
  do r <- SelectContext ctx certificateFindAllQuery [];
  match r with
  | inr err =>
      if isErrNoRows err
      then ret ([], Some (Wrap ErrNotExist (Error err)))
      else ret ([], Some (Wrap ErrPersistenceFailed (Error err)))
  | inl pgCertificates => ret (map ToDomain pgCertificates, None)
  end.

Definition FindByID (ctx : Context) (certID : ID)
  : M (Certificate * option GoError) :=
  do r <- GetContext ctx certificateFindByIDQuery [certID];
  match r with
  | inr err =>
      if isErrNoRows err
      then ret (zero, Some (Wrap ErrNotExist (Error err)))
      else ret (zero, Some (Wrap ErrPersistenceFailed (Error err)))
  | inl pgCertificate => ret (ToDomain pgCertificate, None)
  end.

Definition FindUserCertificates (ctx : Context) (userID : ID)
  : M (list Certificate * option GoError) :=
  do r <- SelectContext ctx certificateFindUserCertificatesQuery [userID];
  match r with
  | inr err =>
      if isErrNoRows err
      then ret ([], Some (Wrap ErrNotExist (Error err)))
      else ret ([], Some (Wrap ErrPersistenceFailed (Error err)))
  | inl pgCertificates => ret (map ToDomain pgCertificates, None)
  end.

Definition FindUserCourseCertificate (ctx : Context) (courseID userID : ID)
  : M (Certificate * option GoError) :=
  do r <- GetContext ctx certificateFindByCourseAndUserIDQuery
            [courseID; userID];
  match r with
  | inr err =>
      if isErrNoRows err
      then ret (zero, Some (Wrap ErrNotExist (Error err)))
      else ret (zero, Some (Wrap ErrPersistenceFailed (Error err)))
  | inl pgCertificate => ret (ToDomain pgCertificate, None)
  end.

Definition Create (ctx : Context) (cert : Certificate)
  : M (Certificate * option GoError) :=
  let pgCertificate := NewPg cert in
  let queryString := InsertQueryString pgCertificate "certificate" in
  do err <- NamedExecContext ctx queryString pgCertificate;
  match err with
  | Some err =>
      match asPgError err with
      | Some code =>
          if String.eqb code PgUniqueViolationCode
          then ret (zero, Some (Wrap ErrDuplicate (Error err)))
          else if String.eqb code PgEnumValueError
          then ret (zero, Some (Wrap ErrEnumValueError (Error err)))
          else ret (zero, Some (Wrap ErrPersistenceFailed (Error err)))
      | None => ret (zero, Some (Wrap ErrPersistenceFailed (Error err)))
      end
  | None =>
      do r <- GetContext ctx certificateFindByIDQuery
                [col "id" pgCertificate];
      match r with
      | inr err =>
          if isErrNoRows err
          then ret (zero, Some (Wrap ErrNotExist (Error err)))
          else ret (zero, Some (Wrap ErrPersistenceFailed (Error err)))
      | inl createdCertificate => ret (ToDomain createdCertificate, None)
      end
  end.
End Repo.
End PostgresCertificateRepo.

(** ** Every method, by name *)

(** The methods of the four repositories with their arguments, and the
    [error] each returns. *)
Section Calls.
Context {codes : PgCodes} {User School Course Review Certificate : Type}
  {userSchema : RowSchema User} {schoolSchema : RowSchema School}
  {courseSchema : RowSchema Course} {reviewSchema : RowSchema Review}
  {certificateSchema : RowSchema Certificate}.

Inductive Call :=
| UserFindAll
| UserFindByID (userID : ID)
| UserFindByEmail (email : string)
| UserFindByCredentials (email password : string)
| UserFindUserInfo (userID : ID)
| UserCreate (user : User)
| UserUpdate (user : User)
| UserDelete (userID : ID)
| SchoolFindAll
| SchoolFindByID (schoolID : ID)
| SchoolFindUserSchools (userID : ID)
| SchoolFindSchoolCourses (schoolID : ID)
| SchoolFindSchoolTeachers (schoolID : ID)
| SchoolIsSchoolTeacher (schoolID teacherID : ID)
| SchoolAddSchoolTeacher (schoolID teacherID : ID)
| SchoolCreate (school : School)
| SchoolUpdate (school : School)
| SchoolDelete (schoolID : ID)
| ReviewFindAll
| ReviewFindByID (reviewID : ID)
| ReviewFindUserReviews (userID : ID)
| ReviewFindCourseReviews (courseID : ID)
| ReviewCreate (review : Review)
| ReviewDelete (reviewID : ID)
| CertificateFindAll
| CertificateFindByID (certID : ID)
| CertificateFindUserCertificates (userID : ID)
| CertificateFindUserCourseCertificate (courseID userID : ID)
| CertificateCreate (cert : Certificate).

Definition failure {A} (m : M (A * option GoError)) : M (option GoError) :=
  do r <- m; ret (snd r).

Definition call_error (ctx : Context) (c : Call) : M (option GoError) :=
  match c with
  | UserFindAll => failure (PostgresUserRepo.FindAll (User := User) ctx)
  | UserFindByID i => failure (PostgresUserRepo.FindByID (User := User) ctx i)
  | UserFindByEmail e =>
      failure (PostgresUserRepo.FindByEmail (User := User) ctx e)
  | UserFindByCredentials e p =>
      failure (PostgresUserRepo.FindByCredentials (User := User) ctx e p)
  | UserFindUserInfo i => failure (PostgresUserRepo.FindUserInfo ctx i)
  | UserCreate u => failure (PostgresUserRepo.Create ctx u)
  | UserUpdate u => failure (PostgresUserRepo.Update ctx u)
  | UserDelete i => PostgresUserRepo.Delete ctx i
  | SchoolFindAll =>
      failure (PostgresSchoolRepo.FindAll (School := School) ctx)
  | SchoolFindByID i =>
      failure (PostgresSchoolRepo.FindByID (School := School) ctx i)
  | SchoolFindUserSchools i =>
      failure (PostgresSchoolRepo.FindUserSchools (School := School) ctx i)
  | SchoolFindSchoolCourses i =>
      failure (PostgresSchoolRepo.FindSchoolCourses (Course := Course) ctx i)
  | SchoolFindSchoolTeachers i =>
      failure (PostgresSchoolRepo.FindSchoolTeachers (User := User) ctx i)
  | SchoolIsSchoolTeacher s t =>
      failure (PostgresSchoolRepo.IsSchoolTeacher ctx s t)
  | SchoolAddSchoolTeacher s t => PostgresSchoolRepo.AddSchoolTeacher ctx s t
  | SchoolCreate s => failure (PostgresSchoolRepo.Create ctx s)
  | SchoolUpdate s => failure (PostgresSchoolRepo.Update ctx s)
  | SchoolDelete i => PostgresSchoolRepo.Delete ctx i
  | ReviewFindAll =>
      failure (PostgresReviewRepo.FindAll (Review := Review) ctx)
  | ReviewFindByID i =>
      failure (PostgresReviewRepo.FindByID (Review := Review) ctx i)
  | ReviewFindUserReviews i =>
      failure (PostgresReviewRepo.FindUserReviews (Review := Review) ctx i)
  | ReviewFindCourseReviews i =>
      failure (PostgresReviewRepo.FindCourseReviews (Review := Review) ctx i)
  | ReviewCreate r => failure (PostgresReviewRepo.Create ctx r)
  | ReviewDelete i => PostgresReviewRepo.Delete ctx i
  | CertificateFindAll =>
      failure (PostgresCertificateRepo.FindAll (Certificate := Certificate) ctx)
  | CertificateFindByID i =>
      failure (PostgresCertificateRepo.FindByID
                 (Certificate := Certificate) ctx i)
  | CertificateFindUserCertificates i =>
      failure (PostgresCertificateRepo.FindUserCertificates
                 (Certificate := Certificate) ctx i)
  | CertificateFindUserCourseCertificate c u =>
      failure (PostgresCertificateRepo.FindUserCourseCertificate
                 (Certificate := Certificate) ctx c u)
  | CertificateCreate c => failure (PostgresCertificateRepo.Create ctx c)
  end.

(** The method whose failures are not classified. *)
Definition unclassified (c : Call) : bool :=
  match c with
  | SchoolIsSchoolTeacher _ _ => true
  | _ => false
  end.

End Calls.

(** ** Reading the store and the driver's schedule *)

(** Whether relation [tbl] holds a row whose [id] is [id]. *)
Definition has_row (t : Tables) (tbl : string) (id : ID) : bool :=
  existsb (fun r => String.eqb (col "id" r) id) (rows_of t tbl).

(** The first row of [tbl] whose [id] is [id]. *)
Definition row_by_id (t : Tables) (tbl : string) (id : ID) : option Row :=
  List.find (fun r => String.eqb (col "id" r) id) (rows_of t tbl).

(** Whether the join relation holds the membership of [teacherID] in
    [schoolID]. *)
Definition is_member (t : Tables) (schoolID teacherID : ID) : bool :=
  existsb (fun r => String.eqb teacherID (col "teacher_id" r)
                    && String.eqb schoolID (col "school_id" r))
    (rows_of t "public.school_teacher").

(** The first [n] driver calls to come meet no fault of the environment. *)
Definition quiet (n : nat) (w : World) : bool :=
  forallb (fun o => match o with None => true | Some _ => false end)
    (firstn n (faults w)).

(** The world once [n] driver calls have gone by, with relations [t]. *)
Definition after (n : nat) (t : Tables) (w : World) : World :=
  {| tables := t; faults := skipn n (faults w) |}.

(** The INSERT of [Create] for row [r] into relation [name] fails with
    [err], leaving the world [w1]. *)
Definition insert_fails {codes : PgCodes} (ctx : Context) (name : string)
  (r : Row) (w : World) (err : DriverErr) (w1 : World) : Prop :=
  NamedExecContext ctx (InsertQueryString r name) r w = (Some err, w1).

(** The UPDATE of [Update] for row [r] of relation [name] fails with
    [err], leaving the world [w1]. *)
Definition update_fails {codes : PgCodes} (ctx : Context) (name : string)
  (r : Row) (w : World) (err : DriverErr) (w1 : World) : Prop :=
  NamedExecContext ctx (UpdateQueryString r name) r w = (Some err, w1).

(** ** The contracts the claims state, per repository *)

Section Contracts.
Context {codes : PgCodes} {E : Type} {schema : RowSchema E}.

(** [find] of an identifier no row of relation [tbl] has: [NotFound] when
    the read reaches the store, and never a nil error. *)
Definition not_found_on_absence
  (find : Context -> ID -> M (E * option GoError)) (tbl : string) : Prop :=
  forall ctx id w,
    has_row (tables w) tbl id = false ->
    (ctxErr ctx = None -> quiet 1 w = true ->
     find ctx id w
     = ((zero, Some (Wrap ErrNotExist (Error ErrNoRows))),
        after 1 (tables w) w))
    /\ (forall e w', find ctx id w <> ((e, None), w')).


(** [update] of an entity whose identifier no row of [public.<name>] has:
    the UPDATE succeeds and changes nothing, the read-back finds no row
    and the method returns [NotFound]; the UPDATE succeeds whenever it
    reaches the store; a failed UPDATE comes back as [UpdateFailed]. *)
Definition update_of_absent
  (update : Context -> E -> M (E * option GoError)) (name : string) : Prop :=
  (forall ctx e w,
      ctxErr ctx = None -> quiet 2 w = true ->
      has_row (tables w) ("public." ++ name) (col "id" (NewPg e)) = false ->
      NamedExecContext ctx (UpdateQueryString (NewPg e) name) (NewPg e) w
      = (None, after 1 (tables w) w)
      /\ update ctx e w
         = ((zero, Some (Wrap ErrNotExist (Error ErrNoRows))),
            after 2 (tables w) w))
  /\ (forall ctx e w,
         ctxErr ctx = None -> quiet 1 w = true ->
         fst (NamedExecContext ctx (UpdateQueryString (NewPg e) name)
                (NewPg e) w) = None)
  /\ (forall ctx e w err w1,
         update_fails ctx name (NewPg e) w err w1 ->
         update ctx e w
         = ((zero, Some (Wrap ErrUpdateFailed (Error err))), w1)).

(** Whatever fails the UPDATE of [update], a unique or an
    enumerated-value violation included, comes back as [UpdateFailed];
    no error [update] returns is [Duplicate] or [EnumValueError]. *)
Definition update_failures_flat
  (update : Context -> E -> M (E * option GoError)) (name : string) : Prop :=
  (forall ctx e w err w1,
      update_fails ctx name (NewPg e) w err w1 ->
      fst (update ctx e w)
      = (zero, Some (Wrap ErrUpdateFailed (Error err))))
  /\ (forall e t fs code m,
         update Live e {| tables := t; faults := Some (PgError code m) :: fs |}
         = ((zero, Some (Wrap ErrUpdateFailed (Error (PgError code m)))),
            {| tables := t; faults := fs |}))
  /\ (forall ctx e w err,
         snd (fst (update ctx e w)) = Some err ->
         kind_of err <> Some ErrDuplicate
         /\ kind_of err <> Some ErrEnumValueError).
End Contracts.


(** ** Concrete instances, for the examples *)

(** PostgreSQL's codes for [unique_violation] and
    [invalid_text_representation]. *)
Definition postgres_codes : PgCodes :=
  {| PgUniqueViolationCode := "23505"; PgEnumValueError := "22P02" |}.

(** An entity that is its own row. *)
Definition row_entity : RowSchema Row :=
  {| zero := []; entID := col "id"; NewPg := fun r => r;
     ToDomain := fun r => r |}.

(** A store with one school and one review, then with a user, then with a
    membership. *)
Definition store0 : Tables :=
  <["public.review" := [[("id", "r1"); ("text", "good")]]]>
  (<["public.school" := [[("id", "s1"); ("name", "first")]]]> ∅).

Definition users0 : Tables :=
  <["public.user" := [[("id", "u1"); ("email", "a@x.com")]]]> store0.

Definition members0 : Tables :=
  <["public.school_teacher" :=
      [[("teacher_id", "u1"); ("school_id", "s1")]]]> store0.

Definition world0 : World := {| tables := store0; faults := [] |}.

(** The world over [t] whose next driver call fails with [e]. *)
Definition failing (e : DriverErr) (t : Tables) : World :=
  {| tables := t; faults := [Some e] |}.

Definition enum_error : DriverErr :=
  PgError "22P02" "invalid input value for enum".

Definition duplicate_error : DriverErr :=
  PgError "23505" "duplicate key value violates unique constraint".

Definition user1 : Row := [("id", "u1"); ("email", "a@x.com")].

Definition user9 : Row := [("id", "u9"); ("email", "z@x.com")].

(** ** Contracts of the finders and of the calls *)

Section FinderContracts.
Context {codes : PgCodes} {E : Type} {schema : RowSchema E}.

(** [findAll] that reaches the store returns every row of [tbl],
    converted, in the store's order, with a nil error. *)
Definition finds_all (findAll : Context -> M (list E * option GoError))
  (tbl : string) : Prop :=
  forall ctx w,
    ctxErr ctx = None -> quiet 1 w = true ->
    findAll ctx w
    = ((map ToDomain (rows_of (tables w) tbl), None), after 1 (tables w) w).

(** [find] that reaches the store returns the rows of [tbl] whose column
    [c] is the key asked for, converted, in the store's order, with a nil
    error. *)
Definition finds_where (find : Context -> ID -> M (list E * option GoError))
  (tbl c : string) : Prop :=
  forall ctx key w,
    ctxErr ctx = None -> quiet 1 w = true ->
    find ctx key w
    = ((map ToDomain
          (List.filter (fun r => String.eqb (col c r) key)
             (rows_of (tables w) tbl)), None),
       after 1 (tables w) w).

(** [find] of an identifier some row of [tbl] has: the first such row,
    converted, with a nil error; and where conversion keeps the identifier,
    the entity returned has the identifier asked for. *)
Definition found_on_presence (find : Context -> ID -> M (E * option GoError))
  (tbl : string) : Prop :=
  forall ctx id w r,
    ctxErr ctx = None -> quiet 1 w = true ->
    row_by_id (tables w) tbl id = Some r ->
    find ctx id w = ((ToDomain r, None), after 1 (tables w) w)
    /\ ((forall r', entID (ToDomain r') = col "id" r') ->
        entID (fst (fst (find ctx id w))) = id).

(** What a finder of one row makes of the first row that satisfies [p], or
    of there being none. *)
Definition one_of (p : Row -> bool) (rs : list Row) : E * option GoError :=
  match List.find p rs with
  | Some r => (ToDomain r, None)
  | None => (zero, Some (Wrap ErrNotExist (Error ErrNoRows)))
  end.


(** After [delete] of an identifier has reached the store, [find] of it
    that reaches the store returns [NotFound], and the first row of every
    other identifier is the one it was. *)
Definition delete_then_find (delete : Context -> ID -> M (option GoError))
  (find : Context -> ID -> M (E * option GoError)) (tbl : string) : Prop :=
  forall ctx id w,
    ctxErr ctx = None -> quiet 2 w = true ->
    exists w1,
      delete ctx id w = (None, w1)
      /\ find ctx id w1
         = ((zero, Some (Wrap ErrNotExist (Error ErrNoRows))),
            after 2 (tables w1) w)
      /\ (forall id', id' <> id ->
          row_by_id (tables w1) tbl id' = row_by_id (tables w) tbl id').
End FinderContracts.

(** A method that returns an error returns the zero value [z] with it. *)
Definition zero_on_error {A} (z : A) (m : M (A * option GoError)) : Prop :=
  forall w, snd (fst (m w)) <> None -> fst (fst (m w)) = z.

Section CallContracts.
Context {User School Review Certificate : Type}.

(** The kinds of error a method can return. *)
Definition allowed_kinds (c : @Call User School Review Certificate)
  : list Sentinel :=
  match c with
  | UserCreate _ | SchoolCreate _ | ReviewCreate _ =>
      [ErrDuplicate; ErrPersistenceFailed; ErrNotExist]
  | CertificateCreate _ =>
      [ErrDuplicate; ErrEnumValueError; ErrPersistenceFailed; ErrNotExist]
  | UserUpdate _ | SchoolUpdate _ =>
      [ErrUpdateFailed; ErrNotExist; ErrPersistenceFailed]
  | UserDelete _ | SchoolDelete _ | ReviewDelete _ => [ErrDeleteFailed]
  | SchoolAddSchoolTeacher _ _ => [ErrDuplicate; ErrPersistenceFailed]
  | _ => [ErrNotExist; ErrPersistenceFailed]
  end.

(** The relation a method writes to, if any. *)
Definition touched (c : @Call User School Review Certificate)
  : option string :=
  match c with
  | UserCreate _ | UserUpdate _ | UserDelete _ => Some "public.user"
  | SchoolCreate _ | SchoolUpdate _ | SchoolDelete _ | ReviewDelete _ =>
      Some "public.school"
  | SchoolAddSchoolTeacher _ _ => Some "public.school_teacher"
  | ReviewCreate _ => Some "public.review"
  | CertificateCreate _ => Some "public.certificate"
  | _ => None
  end.

(** The statements a method sends at most. *)
Definition max_calls (c : @Call User School Review Certificate) : nat :=
  match c with
  | UserCreate _ | SchoolCreate _ | ReviewCreate _ | CertificateCreate _
  | UserUpdate _ | SchoolUpdate _ => 2
  | _ => 1
  end.
End CallContracts.

(** Rows that are teachers of [schoolID] by the join relation. *)
Definition teaches (t : Tables) (schoolID : ID) (u : Row) : Prop :=
  is_member t schoolID (col "id" u) = true.

(** A store with two users, of whom [u1] teaches at school [s1]. *)
Definition user2 : Row := [("id", "u2"); ("email", "b@x.com")].

Definition staff0 : Tables :=
  <["public.user" := [user1; user2]]> members0.

(** ** What a computation may change *)

(** The relation a statement writes to, if any. *)
Definition stmt_target (st : Stmt) : option string :=
  match st with
  | SqlInsert tbl _ _ | SqlDelete tbl _ => Some tbl
  | _ => None
  end.

Definition query_target (q : string) : option string :=
  match parse q with
  | Some st => stmt_target st
  | None => None
  end.

Definition named_target (q : NamedQuery) : string :=
  match q with
  | NamedInsert tbl _ | NamedUpdate tbl _ _ => tbl
  end.

(** [m] leaves the rows of relation [tbl] as they were. *)
Definition preserves {A} (tbl : string) (m : M A) : Prop :=
  forall w, rows_of (tables (snd (m w))) tbl = rows_of (tables w) tbl.

(** [m] calls the driver at most [n] times: it moves at most [n] entries
    down the schedule of the calls to come. *)
Definition calls_at_most {A} (n : nat) (m : M A) : Prop :=
  forall w, exists k, k <= n /\ faults (snd (m w)) = skipn k (faults w).

Section CreateContracts.
Context {codes : PgCodes} {E : Type} {schema : RowSchema E}.

End CreateContracts.

(** ** A larger store, for the examples *)

Definition ann : Row :=
  [("id", "u3"); ("name", "Ann"); ("surname", "Lee");
   ("email", "ann@x.com"); ("password", "secret")].

Definition campus : Tables :=
  <["public.user" := [user1; ann]]>
  (<["public.school" := [[("id", "s1"); ("owner_id", "u3")]]]>
  (<["public.course" := [[("id", "c1"); ("school_id", "s1")]]]>
  (<["public.school_teacher" :=
       [[("teacher_id", "u1"); ("school_id", "s1")]]]>
  (<["public.review" :=
       [[("id", "r1"); ("user_id", "u1"); ("course_id", "c1")];
        [("id", "r2"); ("user_id", "u3"); ("course_id", "c1")]]]>
  (<["public.certificate" :=
       [[("id", "k1"); ("course_id", "c1"); ("user_id", "u1")]]]> ∅))))).

Definition campus0 : World := {| tables := campus; faults := [] |}.



Definition review1 : Row :=
  [("id", "r1"); ("user_id", "u1"); ("course_id", "c1")].

Definition review2 : Row :=
  [("id", "r2"); ("user_id", "u3"); ("course_id", "c1")].


(** * Properties *)

(** ** The statements the repositories send *)

Example parse_select_by_id :
  parse "SELECT * FROM public.user WHERE id = $1"
  = Some (SqlSelect ["*"] "public.user" [("id", 0)]).
Proof. reflexivity. Qed.

Example parse_select_info :
  parse "SELECT name, surname FROM public.user WHERE id = $1"
  = Some (SqlSelect ["name"; "surname"] "public.user" [("id", 0)]).
Proof. reflexivity. Qed.

Example parse_select_two :
  parse "SELECT * FROM public.user WHERE email = $1 AND password = $2"
  = Some (SqlSelect ["*"] "public.user" [("email", 0); ("password", 1)]).
Proof. reflexivity. Qed.

Example parse_select_all :
  parse "SELECT * FROM public.review"
  = Some (SqlSelect ["*"] "public.review" []).
Proof. reflexivity. Qed.

Example parse_exists :
  parse ("SELECT EXISTS (SELECT 1 FROM public.school_teacher " ++
         "WHERE school_id = $1 AND teacher_id = $2)")
  = Some (SqlExists "public.school_teacher"
            [("school_id", 0); ("teacher_id", 1)]).
Proof. reflexivity. Qed.

Example parse_insert_teacher :
  parse ("INSERT INTO public.school_teacher (teacher_id, school_id) " ++
         "VALUES ($1, $2)")
  = Some (SqlInsert "public.school_teacher" ["teacher_id"; "school_id"] [0; 1]).
Proof. reflexivity. Qed.

Example parse_delete_by_id :
  parse "DELETE FROM public.school WHERE id = $1"
  = Some (SqlDelete "public.school" [("id", 0)]).
Proof. reflexivity. Qed.

Example parse_teachers :
  parse ("SELECT u.* FROM public.user u " ++
         "JOIN public.school_teacher st on u.id = st.teacher_id " ++
         "JOIN public.school s on st.school_id = s.id WHERE s.id = $1")
  = Some (SqlJoin "u" "public.user" "u" "public.school_teacher" "st"
            (("u", "id"), ("st", "teacher_id"))
            "public.school" "s" (("st", "school_id"), ("s", "id"))
            (("s", "id"), 0)).
Proof. reflexivity. Qed.

(** ** The driver *)

Lemma skipn_one_tail {A} (l : list A) : skipn 1 l = tail l.
Proof. destruct l; reflexivity. Qed.

Lemma driver_call_done {A} ctx e
  (run : Tables -> (A + DriverErr) * Tables) w :
  ctxErr ctx = Some e -> driver_call ctx run w = (inr e, w).
Proof. intros Hc. unfold driver_call. rewrite Hc. reflexivity. Qed.

Lemma driver_call_fault {A} ctx e
  (run : Tables -> (A + DriverErr) * Tables) t fs :
  ctxErr ctx = None ->
  driver_call ctx run {| tables := t; faults := Some e :: fs |}
  = (inr e, {| tables := t; faults := fs |}).
Proof. intros Hc. unfold driver_call. rewrite Hc. reflexivity. Qed.

Lemma driver_call_quiet {A} ctx
  (run : Tables -> (A + DriverErr) * Tables) w :
  ctxErr ctx = None -> quiet 1 w = true ->
  driver_call ctx run w
  = (fst (run (tables w)), after 1 (snd (run (tables w))) w).
Proof.
  intros Hc Hq. unfold driver_call, after. rewrite Hc, skipn_one_tail.
  destruct w as [t fs]; simpl in *.
  destruct fs as [|[e|] fs]; simpl in *; try discriminate;
    destruct (run t); reflexivity.
Qed.


Lemma quiet_after n m t w :
  quiet (n + m) w = true -> quiet m (after n t w) = true.
Proof.
  unfold quiet, after; simpl. revert n.
  induction (faults w) as [|o fs IH]; intros n Hq.
  - rewrite skipn_nil, firstn_nil. reflexivity.
  - destruct n as [|n]; simpl in *; [exact Hq|].
    apply andb_prop in Hq as [_ Hq]. apply IH, Hq.
Qed.

Lemma quiet_le n m w : m <= n -> quiet n w = true -> quiet m w = true.
Proof.
  unfold quiet. revert n m.
  induction (faults w) as [|o fs IH]; intros n m Hle Hq.
  - rewrite firstn_nil. reflexivity.
  - destruct m as [|m]; [reflexivity|].
    destruct n as [|n]; [lia|]. simpl in *.
    apply andb_prop in Hq as [Ho Hq]. rewrite Ho. simpl.
    apply (IH n m); [lia | exact Hq].
Qed.

Lemma after_after n m t t' w : after m t' (after n t w) = after (n + m) t' w.
Proof.
  unfold after; simpl. f_equal. rewrite skipn_skipn. f_equal. lia.
Qed.

(** ** The store *)

Lemma rows_of_alter_ne f tbl tbl' (t : Tables) :
  tbl <> tbl' -> rows_of (alter f tbl t) tbl' = rows_of t tbl'.
Proof. intros Hne. unfold rows_of. rewrite lookup_alter_ne; done. Qed.

Lemma rows_of_alter f tbl (t : Tables) :
  rows_of (alter f tbl t) tbl = match t !! tbl with
                                | Some rs => f rs
                                | None => []
                                end.
Proof.
  unfold rows_of. rewrite lookup_alter_eq. destruct (t !! tbl); reflexivity.
Qed.

Lemma alter_fixed (f : list Row -> list Row) tbl (t : Tables) :
  f (rows_of t tbl) = rows_of t tbl -> alter f tbl t = t.
Proof.
  intros Hf. apply map_eq. intros k.
  destruct (decide (tbl = k)) as [->|Hne].
  - rewrite lookup_alter_eq. unfold rows_of in Hf.
    destruct (t !! k); simpl in *; congruence.
  - rewrite lookup_alter_ne; done.
Qed.

Lemma holds_id id r : holds [("id", 0)] [id] r = String.eqb (col "id" r) id.
Proof. unfold holds; simpl. apply andb_true_r. Qed.

Lemma filter_id_absent (t : Tables) tbl id :
  has_row t tbl id = false ->
  List.filter (holds [("id", 0)] [id]) (rows_of t tbl) = [].
Proof.
  unfold has_row.
  induction (rows_of t tbl) as [|r rs IH]; cbn [List.filter existsb]; [done|].
  intros Hx. apply orb_false_elim in Hx as [Hr Hrs].
  rewrite holds_id, Hr. apply IH, Hrs.
Qed.



Lemma first_row_filter (t : Tables) tbl id :
  first_row (map (project ["*"])
               (List.filter (holds [("id", 0)] [id]) (rows_of t tbl)))
  = match row_by_id t tbl id with
    | Some r => inl r
    | None => inr ErrNoRows
    end.
Proof.
  unfold row_by_id.
  induction (rows_of t tbl) as [|r rs IH]; cbn [List.filter List.find]; [done|].
  rewrite holds_id. destruct (String.eqb (col "id" r) id); [|exact IH].
  cbn [map first_row]. unfold project. rewrite String.eqb_refl. reflexivity.
Qed.

Lemma row_by_id_absent (t : Tables) tbl id :
  has_row t tbl id = false -> row_by_id t tbl id = None.
Proof.
  unfold has_row, row_by_id.
  induction (rows_of t tbl) as [|r rs IH]; simpl; [done|].
  intros Hx. apply orb_false_elim in Hx as [Hr Hrs]. rewrite Hr. auto.
Qed.

Lemma row_by_id_id (t : Tables) tbl id r :
  row_by_id t tbl id = Some r -> col "id" r = id.
Proof.
  unfold row_by_id. intros Hf. apply find_some in Hf as [_ Hr].
  apply String.eqb_eq, Hr.
Qed.

(** ** The driver's calls *)

Section DriverCalls.
Context {codes : PgCodes}.

Lemma GetContext_done ctx e q args w :
  ctxErr ctx = Some e -> GetContext ctx q args w = (inr e, w).
Proof. intros Hc. unfold GetContext. apply driver_call_done, Hc. Qed.




Lemma GetContext_fault e q args t fs :
  GetContext Live q args {| tables := t; faults := Some e :: fs |}
  = (inr e, {| tables := t; faults := fs |}).
Proof. reflexivity. Qed.

Lemma ExecContext_fault e q args t fs :
  ExecContext Live q args {| tables := t; faults := Some e :: fs |}
  = (Some e, {| tables := t; faults := fs |}).
Proof. reflexivity. Qed.

Lemma NamedExecContext_fault e q r t fs :
  NamedExecContext Live q r {| tables := t; faults := Some e :: fs |}
  = (Some e, {| tables := t; faults := fs |}).
Proof. reflexivity. Qed.

(** A read by identifier that reaches the store. *)
Lemma GetContext_by_id ctx q tbl id w :
  parse q = Some (SqlSelect ["*"] tbl [("id", 0)]) ->
  ctxErr ctx = None -> quiet 1 w = true ->
  GetContext ctx q [id] w
  = (match row_by_id (tables w) tbl id with
     | Some r => inl r
     | None => inr ErrNoRows
     end, after 1 (tables w) w).
Proof.
  intros Hp Hc Hq. unfold GetContext.
  rewrite driver_call_quiet by assumption.
  unfold run_query. rewrite Hp. cbn [run_stmt fst snd].
  rewrite first_row_filter. reflexivity.
Qed.

(** A delete by identifier that reaches the store. *)
Lemma ExecContext_delete ctx q tbl id w :
  parse q = Some (SqlDelete tbl [("id", 0)]) ->
  ctxErr ctx = None -> quiet 1 w = true ->
  ExecContext ctx q [id] w
  = (None, after 1 (delete_rows tbl [("id", 0)] [id] (tables w)) w).
Proof.
  intros Hp Hc Hq. unfold ExecContext, bind.
  rewrite driver_call_quiet by assumption.
  unfold run_query. rewrite Hp. reflexivity.
Qed.

(** A delete leaves every other relation as it was, whatever becomes of
    the call. *)
Lemma ExecContext_delete_other ctx q tbl tbl' conds args w :
  parse q = Some (SqlDelete tbl conds) -> tbl <> tbl' ->
  rows_of (tables (snd (ExecContext ctx q args w))) tbl'
  = rows_of (tables w) tbl'.
Proof.
  intros Hp Hne. unfold ExecContext, bind, driver_call, run_query.
  rewrite Hp. cbn [run_stmt].
  destruct (ctxErr ctx); [reflexivity|].
  destruct (faults w) as [|[e|] fs]; cbn [snd tables ret];
    try reflexivity; apply rows_of_alter_ne, Hne.
Qed.
End DriverCalls.

(** ** Claims *)

(** C1.  The review repository's [Delete] does not delete from the review
    relation: its statement names [public.school].  No call of it changes
    the rows of [public.review]; on a store holding review [r1] and school
    [s1], [Delete] of [r1] returns no error and leaves the review in place,
    and [Delete] of [s1] empties the school relation. *)
Theorem review_delete_runs_on_school {codes : PgCodes} :
  (forall ctx id w,
      rows_of (tables (snd (PostgresReviewRepo.Delete ctx id w)))
        "public.review"
      = rows_of (tables w) "public.review")
  /\ PostgresReviewRepo.Delete Live "r1" world0 = (None, world0)
  /\ row_by_id (tables (snd (PostgresReviewRepo.Delete Live "r1" world0)))
       "public.review" "r1" = Some [("id", "r1"); ("text", "good")]
  /\ rows_of (tables (snd (PostgresReviewRepo.Delete Live "s1" world0)))
       "public.school" = [].
Proof.
  split; [|repeat split; vm_compute; reflexivity].
  intros ctx id w. unfold PostgresReviewRepo.Delete, bind.
  pose proof (ExecContext_delete_other ctx PostgresReviewRepo.reviewDeleteQuery
                "public.school" "public.review" [("id", 0)] [id] w
                eq_refl) as Hx.
  destruct (ExecContext ctx PostgresReviewRepo.reviewDeleteQuery [id] w)
    as [[e|] w']; cbn [snd ret] in *; apply Hx; discriminate.
Qed.

(** C2.  [IsSchoolTeacher] hands a failure of the driver back as it came:
    the returned error is the driver's own and carries no domain kind. *)
Theorem is_school_teacher_returns_driver_error {codes : PgCodes} :
  forall schoolID teacherID t fs e,
    PostgresSchoolRepo.IsSchoolTeacher Live schoolID teacherID
      {| tables := t; faults := Some e :: fs |}
    = ((false, Some (Raw e)), {| tables := t; faults := fs |})
    /\ kind_of (Raw e) = None.
Proof. intros. split; reflexivity. Qed.

(** Splits on the outcome of the next driver call in the goal. *)
Ltac destruct_driver :=
  match goal with
  | |- context [GetContext ?c ?q ?a ?w] =>
      destruct (GetContext c q a w) as [[?|?] ?]
  | |- context [SelectContext ?c ?q ?a ?w] =>
      destruct (SelectContext c q a w) as [[?|?] ?]
  | |- context [ExecContext ?c ?q ?a ?w] =>
      destruct (ExecContext c q a w) as [[?|] ?]
  | |- context [NamedExecContext ?c ?q ?r ?w] =>
      destruct (NamedExecContext c q r w) as [[?|] ?]
  end.

Section Classification.
Context {codes : PgCodes} {User School Course Review Certificate : Type}
  {userSchema : RowSchema User} {schoolSchema : RowSchema School}
  {courseSchema : RowSchema Course} {reviewSchema : RowSchema Review}
  {certificateSchema : RowSchema Certificate}.

Local Abbreviation Call' := (@Call User School Review Certificate).

(** Every method but [IsSchoolTeacher] returns its failures wrapped in a
    sentinel of the taxonomy. *)
Lemma failures_classified ctx (c : Call') w err :
  unclassified c = false ->
  fst (call_error (Course := Course) ctx c w) = Some err ->
  exists k m, err = Wrap k m.
Proof.
  intros Hc.
  destruct c; try discriminate Hc; clear Hc;
    cbv [call_error failure bind ret
         PostgresUserRepo.FindAll PostgresUserRepo.FindByID
         PostgresUserRepo.FindByEmail PostgresUserRepo.FindByCredentials
         PostgresUserRepo.FindUserInfo PostgresUserRepo.Create
         PostgresUserRepo.Update PostgresUserRepo.Delete
         PostgresSchoolRepo.FindAll PostgresSchoolRepo.FindByID
         PostgresSchoolRepo.FindUserSchools
         PostgresSchoolRepo.FindSchoolCourses
         PostgresSchoolRepo.FindSchoolTeachers
         PostgresSchoolRepo.AddSchoolTeacher PostgresSchoolRepo.Create
         PostgresSchoolRepo.Update PostgresSchoolRepo.Delete
         PostgresReviewRepo.FindAll PostgresReviewRepo.FindByID
         PostgresReviewRepo.FindUserReviews
         PostgresReviewRepo.FindCourseReviews PostgresReviewRepo.Create
         PostgresReviewRepo.Delete
         PostgresCertificateRepo.FindAll PostgresCertificateRepo.FindByID
         PostgresCertificateRepo.FindUserCertificates
         PostgresCertificateRepo.FindUserCourseCertificate
         PostgresCertificateRepo.Create];
    repeat (destruct_driver; cbv beta iota);
    repeat match goal with
           | |- context [if ?b then _ else _] => destruct b
           | |- context [match ?x with Some _ => _ | None => _ end] =>
               destruct x
           end;
    cbn [fst snd]; intros [=]; subst; eauto.
Qed.

End Classification.

Section Inserts.
Context {codes : PgCodes} {User School Review Certificate : Type}
  {userSchema : RowSchema User} {schoolSchema : RowSchema School}
  {reviewSchema : RowSchema Review} {certificateSchema : RowSchema Certificate}.

Lemma same_key_member (rs : list Row) schoolID teacherID :
  existsb (same_key (primary_key "public.school_teacher")
             [("teacher_id", teacherID); ("school_id", schoolID)]) rs
  = existsb (fun r => String.eqb teacherID (col "teacher_id" r)
                      && String.eqb schoolID (col "school_id" r)) rs.
Proof.
  induction rs as [|r rs IH]; [reflexivity|].
  cbn [existsb]. rewrite IH. f_equal.
  unfold same_key, primary_key; simpl. rewrite andb_true_r. reflexivity.
Qed.

Lemma insert_row_member (t : Tables) schoolID teacherID :
  is_member t schoolID teacherID = true ->
  insert_row "public.school_teacher"
    [("teacher_id", teacherID); ("school_id", schoolID)] t
  = (Some unique_violation, t).
Proof.
  unfold is_member, insert_row. intros Hm.
  rewrite same_key_member, Hm. reflexivity.
Qed.

(** C8.  A failed write whose error carries the unique-violation code
    comes back as [Duplicate]: from the [Create] of each of the four
    repositories and from [AddSchoolTeacher]; and adding a membership the
    join relation already holds fails so in the store and returns
    [Duplicate], the relation unchanged. *)
Theorem unique_violation_is_duplicate ctx err :
  asPgError err = Some PgUniqueViolationCode ->
  (forall (user : User) w w1,
      insert_fails ctx "user" (NewPg user) w err w1 ->
      PostgresUserRepo.Create ctx user w
      = ((zero, Some (Wrap ErrDuplicate (Error err))), w1))
  /\ (forall (school : School) w w1,
         insert_fails ctx "school" (NewPg school) w err w1 ->
         PostgresSchoolRepo.Create ctx school w
         = ((zero, Some (Wrap ErrDuplicate (Error err))), w1))
  /\ (forall (review : Review) w w1,
         insert_fails ctx "review" (NewPg review) w err w1 ->
         PostgresReviewRepo.Create ctx review w
         = ((zero, Some (Wrap ErrDuplicate (Error err))), w1))
  /\ (forall (cert : Certificate) w w1,
         insert_fails ctx "certificate" (NewPg cert) w err w1 ->
         PostgresCertificateRepo.Create ctx cert w
         = ((zero, Some (Wrap ErrDuplicate (Error err))), w1))
  /\ (forall schoolID teacherID w w1,
         ExecContext ctx PostgresSchoolRepo.schoolAddTeacherQuery
           [teacherID; schoolID] w = (Some err, w1) ->
         PostgresSchoolRepo.AddSchoolTeacher ctx schoolID teacherID w
         = (Some (Wrap ErrDuplicate (Error err)), w1))
  /\ (forall schoolID teacherID w,
         ctxErr ctx = None -> quiet 1 w = true ->
         is_member (tables w) schoolID teacherID = true ->
         PostgresSchoolRepo.AddSchoolTeacher ctx schoolID teacherID w
         = (Some (Wrap ErrDuplicate (Error unique_violation)),
            after 1 (tables w) w)).
Proof.
  intros Hu.
  repeat split; intros;
    try (unfold PostgresUserRepo.Create, PostgresSchoolRepo.Create,
           PostgresReviewRepo.Create, PostgresCertificateRepo.Create,
           PostgresSchoolRepo.AddSchoolTeacher, insert_fails, bind in *;
         match goal with Hf : _ = (Some err, _) |- _ => rewrite Hf end;
         cbv beta iota; rewrite Hu, String.eqb_refl; reflexivity).
  unfold PostgresSchoolRepo.AddSchoolTeacher, ExecContext, bind.
  rewrite driver_call_quiet by assumption.
  unfold run_query.
  change (parse PostgresSchoolRepo.schoolAddTeacherQuery)
    with (Some (SqlInsert "public.school_teacher"
                  ["teacher_id"; "school_id"] [0; 1])).
  cbn [run_stmt map combine arg nth].
  rewrite insert_row_member by assumption.
  cbn [fst snd ret err_of asPgError unique_violation].
  rewrite String.eqb_refl. reflexivity.
Qed.

(** C3, as the code has it.  Of the four [Create]s only the certificate
    repository's looks for the enumerated-value code: a failed INSERT
    carrying it comes back as [EnumValueError] there, and as
    [PersistenceFailed] from the user, school and review repositories. *)
Theorem enum_violation_by_repository ctx err :
  PgUniqueViolationCode <> PgEnumValueError ->
  asPgError err = Some PgEnumValueError ->
  (forall (cert : Certificate) w w1,
      insert_fails ctx "certificate" (NewPg cert) w err w1 ->
      PostgresCertificateRepo.Create ctx cert w
      = ((zero, Some (Wrap ErrEnumValueError (Error err))), w1))
  /\ (forall (user : User) w w1,
         insert_fails ctx "user" (NewPg user) w err w1 ->
         PostgresUserRepo.Create ctx user w
         = ((zero, Some (Wrap ErrPersistenceFailed (Error err))), w1))
  /\ (forall (school : School) w w1,
         insert_fails ctx "school" (NewPg school) w err w1 ->
         PostgresSchoolRepo.Create ctx school w
         = ((zero, Some (Wrap ErrPersistenceFailed (Error err))), w1))
  /\ (forall (review : Review) w w1,
         insert_fails ctx "review" (NewPg review) w err w1 ->
         PostgresReviewRepo.Create ctx review w
         = ((zero, Some (Wrap ErrPersistenceFailed (Error err))), w1)).
Proof.
  intros Hne He.
  assert (String.eqb PgEnumValueError PgUniqueViolationCode = false) as Hf
    by (apply String.eqb_neq; congruence).
  repeat split; intros;
    unfold PostgresUserRepo.Create, PostgresSchoolRepo.Create,
      PostgresReviewRepo.Create, PostgresCertificateRepo.Create,
      insert_fails, bind in *;
    match goal with Hi : _ = (Some err, _) |- _ => rewrite Hi end;
    cbv beta iota; rewrite He, Hf, ?String.eqb_refl; reflexivity.
Qed.
End Inserts.

(** ** Reads by identifier *)

Section Reads.
Context {codes : PgCodes}.

Lemma GetContext_absent ctx q tbl id w :
  parse q = Some (SqlSelect ["*"] tbl [("id", 0)]) ->
  has_row (tables w) tbl id = false ->
  exists e w', GetContext ctx q [id] w = (inr e, w').
Proof.
  intros Hp Hx. unfold GetContext, driver_call.
  destruct (ctxErr ctx); [eauto|].
  assert (run_query q [id] (tables w) = (inl [], tables w)) as Hr.
  { unfold run_query. rewrite Hp. cbn [run_stmt].
    rewrite filter_id_absent by exact Hx. reflexivity. }
  destruct (faults w) as [|[e|] fs]; rewrite ?Hr; cbn [first_row]; eauto.
Qed.


End Reads.

(** Settles [not_found_on_absence] for the read of a repository. *)
Ltac solve_not_found q tbl :=
  intros ctx id w Hx; split;
  [ intros Hc Hq; cbv beta delta [PostgresUserRepo.FindByID
      PostgresSchoolRepo.FindByID PostgresReviewRepo.FindByID
      PostgresCertificateRepo.FindByID bind];
    rewrite (GetContext_by_id ctx q tbl id w eq_refl Hc Hq);
    rewrite (row_by_id_absent _ _ _ Hx); reflexivity
  | intros e w'; cbv beta delta [PostgresUserRepo.FindByID
      PostgresSchoolRepo.FindByID PostgresReviewRepo.FindByID
      PostgresCertificateRepo.FindByID bind];
    destruct (GetContext_absent ctx q tbl id w eq_refl Hx) as (err & w1 & Hg);
    rewrite Hg; cbv beta iota; destruct (isErrNoRows err); discriminate ].

(** C7.  In each of the four repositories, [FindByID] of an identifier
    that no row of the relation has returns the zero entity with
    [NotFound] when the read reaches the store, and whatever becomes of the
    read it never returns a nil error. *)
Theorem find_by_id_of_missing_row {codes : PgCodes}
  {User School Review Certificate : Type}
  {userSchema : RowSchema User} {schoolSchema : RowSchema School}
  {reviewSchema : RowSchema Review}
  {certificateSchema : RowSchema Certificate} :
  not_found_on_absence (E := User) PostgresUserRepo.FindByID "public.user"
  /\ not_found_on_absence (E := School) PostgresSchoolRepo.FindByID
       "public.school"
  /\ not_found_on_absence (E := Review) PostgresReviewRepo.FindByID
       "public.review"
  /\ not_found_on_absence (E := Certificate) PostgresCertificateRepo.FindByID
       "public.certificate".
Proof.
  repeat apply conj.
  - solve_not_found PostgresUserRepo.userFindByIDQuery "public.user".
  - solve_not_found PostgresSchoolRepo.schoolFindByIDQuery "public.school".
  - solve_not_found PostgresReviewRepo.reviewFindByIDQuery "public.review".
  - solve_not_found PostgresCertificateRepo.certificateFindByIDQuery
      "public.certificate".
Qed.

(** ** Writes *)

Lemma update_rows_absent (t : Tables) tbl cols r :
  has_row t tbl (col "id" r) = false -> update_rows tbl cols "id" r t = t.
Proof.
  intros Hx. unfold update_rows. apply alter_fixed.
  unfold has_row in Hx.
  induction (rows_of t tbl) as [|old rs IH]; [reflexivity|].
  cbn [existsb map] in *. apply orb_false_elim in Hx as [Hr Hrs].
  rewrite Hr, IH by exact Hrs. reflexivity.
Qed.

Lemma NamedExecContext_update {codes : PgCodes} ctx r name w :
  ctxErr ctx = None -> quiet 1 w = true ->
  NamedExecContext ctx (UpdateQueryString r name) r w
  = (None,
     after 1 (update_rows ("public." ++ name)
                (List.filter (fun c => negb (String.eqb c "id")) (map fst r))
                "id" r (tables w)) w).
Proof.
  intros Hc Hq. unfold NamedExecContext, bind.
  rewrite driver_call_quiet by assumption. reflexivity.
Qed.




(** Settles [update_of_absent] for the [Update] of a repository, whose
    read-back statement is [q] on relation [tbl]. *)
Ltac solve_update_of_absent q name tbl :=
  repeat apply conj;
  [ intros ctx e w Hc Hq Hx;
    pose proof (quiet_le 2 1 w ltac:(lia) Hq) as Hq1;
    pose proof (NamedExecContext_update ctx (NewPg e) name w Hc Hq1) as Hup;
    change ("public." ++ name) with tbl in Hx, Hup;
    rewrite update_rows_absent in Hup by exact Hx;
    split; [exact Hup|];
    cbv beta zeta delta [PostgresUserRepo.Update PostgresSchoolRepo.Update
      bind];
    rewrite Hup; cbv beta iota;
    rewrite (GetContext_by_id ctx q tbl _ _ eq_refl Hc
               (quiet_after 1 1 (tables w) w Hq));
    cbn [tables after];
    rewrite (row_by_id_absent _ _ _ Hx); cbn [isErrNoRows ret];
    rewrite after_after; reflexivity
  | intros ctx e w Hc Hq;
    rewrite NamedExecContext_update by assumption; reflexivity
  | intros ctx e w err w1 Hf; unfold update_fails in Hf;
    cbv beta zeta delta [PostgresUserRepo.Update PostgresSchoolRepo.Update
      bind];
    rewrite Hf; reflexivity ].

(** C6.  In the user and the school repository, [Update] of an entity
    whose identifier no row has: the UPDATE succeeds, as it does whenever it
    reaches the store, and matches nothing; the read-back finds no row and
    [Update] returns [NotFound]; and an UPDATE that fails comes back as
    [UpdateFailed]. *)
Theorem update_of_missing_row {codes : PgCodes} {User School : Type}
  {userSchema : RowSchema User} {schoolSchema : RowSchema School} :
  update_of_absent (E := User) PostgresUserRepo.Update "user"
  /\ update_of_absent (E := School) PostgresSchoolRepo.Update "school".
Proof.
  split.
  - solve_update_of_absent PostgresUserRepo.userFindByIDQuery "user"
      "public.user".
  - solve_update_of_absent PostgresSchoolRepo.schoolFindByIDQuery "school"
      "public.school".
Qed.

(** Settles [update_failures_flat] for the [Update] of a repository. *)
Ltac solve_update_failures :=
  repeat apply conj;
  [ intros ctx e w err w1 Hf; unfold update_fails in Hf;
    cbv beta zeta delta [PostgresUserRepo.Update PostgresSchoolRepo.Update
      bind];
    rewrite Hf; reflexivity
  | intros e t fs code m; reflexivity
  | intros ctx e w err;
    cbv beta zeta delta [PostgresUserRepo.Update PostgresSchoolRepo.Update
      bind];
    repeat (destruct_driver; cbv beta iota);
    repeat match goal with
           | |- context [if ?b then _ else _] => destruct b
           end;
    cbn [fst snd ret]; intros [=]; subst; split; discriminate ].

(** C10.  In the user and the school repository, whatever fails the
    UPDATE of [Update] comes back as [UpdateFailed], a driver error with the
    unique-violation or the enumerated-value code like any other, and no
    error that [Update] returns is [Duplicate] or [EnumValueError]. *)
Theorem update_failure_is_update_failed {codes : PgCodes}
  {User School : Type}
  {userSchema : RowSchema User} {schoolSchema : RowSchema School} :
  update_failures_flat (E := User) PostgresUserRepo.Update "user"
  /\ update_failures_flat (E := School) PostgresSchoolRepo.Update "school".
Proof. split; solve_update_failures. Qed.



(** ** The claims at concrete inputs *)

(** C3 fails for the user repository: an INSERT failed by the driver with
    the enumerated-value code makes [Create] return [PersistenceFailed]. *)
Lemma user_create_enum_violation :
  asPgError enum_error = Some (PgEnumValueError (PgCodes := postgres_codes))
  /\ insert_fails (codes := postgres_codes) Live "user" user1
       (failing enum_error store0) enum_error world0
  /\ PostgresUserRepo.Create (codes := postgres_codes)
       (userSchema := row_entity) Live user1 (failing enum_error store0)
     = (([], Some (Wrap ErrPersistenceFailed
                     "ERROR: invalid input value for enum (SQLSTATE 22P02)")),
        world0)
  /\ kind_of (Wrap ErrPersistenceFailed (Error enum_error))
     <> Some ErrEnumValueError.
Proof.
  split; [reflexivity|]. split; [reflexivity|]. split; [reflexivity|].
  discriminate.
Qed.

(** The certificate repository on an INSERT failed with the
    enumerated-value code, under PostgreSQL's codes. *)
Lemma enum_violation_by_repository_witness :
  (PgUniqueViolationCode (PgCodes := postgres_codes)
   <> PgEnumValueError (PgCodes := postgres_codes))
  /\ asPgError enum_error = Some (PgEnumValueError (PgCodes := postgres_codes))
  /\ insert_fails (codes := postgres_codes) Live "certificate" user1
       (failing enum_error store0) enum_error world0
  /\ PostgresCertificateRepo.Create (codes := postgres_codes)
       (certificateSchema := row_entity) Live user1 (failing enum_error store0)
     = (([], Some (Wrap ErrEnumValueError (Error enum_error))), world0).
Proof.
  assert (PgUniqueViolationCode (PgCodes := postgres_codes)
          <> PgEnumValueError (PgCodes := postgres_codes)) as Hne
    by discriminate.
  split; [exact Hne|]. split; [reflexivity|]. split; [reflexivity|].
  exact (proj1 (enum_violation_by_repository (codes := postgres_codes)
                  (userSchema := row_entity) (schoolSchema := row_entity)
                  (reviewSchema := row_entity)
                  (certificateSchema := row_entity)
                  Live enum_error Hne eq_refl)
           user1 (failing enum_error store0) world0 eq_refl).
Defined.




(** Updating user [u9], whom the store does not hold, and an UPDATE the
    driver fails. *)
Lemma update_of_missing_row_witness :
  ctxErr Live = None
  /\ quiet 2 world0 = true
  /\ has_row (tables world0) "public.user" (col "id" user9) = false
  /\ PostgresUserRepo.Update (codes := postgres_codes)
       (userSchema := row_entity) Live user9 world0
     = (([], Some (Wrap ErrNotExist "sql: no rows in result set")), world0)
  /\ PostgresUserRepo.Update (codes := postgres_codes)
       (userSchema := row_entity) Live user9 (failing duplicate_error store0)
     = (([], Some (Wrap ErrUpdateFailed (Error duplicate_error))), world0).
Proof.
  destruct (proj1 (update_of_missing_row (codes := postgres_codes)
                     (userSchema := row_entity) (schoolSchema := row_entity)))
    as (Habsent & _ & Hfail).
  split; [reflexivity|]. split; [reflexivity|]. split; [reflexivity|].
  split.
  - exact (proj2 (Habsent Live user9 world0 eq_refl eq_refl eq_refl)).
  - exact (Hfail Live user9 (failing duplicate_error store0) duplicate_error
             world0 eq_refl).
Defined.

(** Finding user [u9], whom the store does not hold. *)
Lemma find_by_id_of_missing_row_witness :
  has_row (tables world0) "public.user" "u9" = false
  /\ ctxErr Live = None
  /\ quiet 1 world0 = true
  /\ PostgresUserRepo.FindByID (codes := postgres_codes)
       (userSchema := row_entity) Live "u9" world0
     = (([], Some (Wrap ErrNotExist "sql: no rows in result set")), world0).
Proof.
  split; [reflexivity|]. split; [reflexivity|]. split; [reflexivity|].
  exact (proj1 (proj1 (find_by_id_of_missing_row (codes := postgres_codes)
                         (userSchema := row_entity)
                         (schoolSchema := row_entity)
                         (reviewSchema := row_entity)
                         (certificateSchema := row_entity))
                  Live "u9" world0 eq_refl) eq_refl eq_refl).
Defined.

(** Creating user [u1] a second time, and adding a membership the store
    holds. *)
Lemma unique_violation_is_duplicate_witness :
  asPgError duplicate_error
  = Some (PgUniqueViolationCode (PgCodes := postgres_codes))
  /\ insert_fails (codes := postgres_codes) Live "user" user1
       {| tables := users0; faults := [] |} duplicate_error
       {| tables := users0; faults := [] |}
  /\ PostgresUserRepo.Create (codes := postgres_codes)
       (userSchema := row_entity) Live user1
       {| tables := users0; faults := [] |}
     = (([], Some (Wrap ErrDuplicate (Error duplicate_error))),
        {| tables := users0; faults := [] |})
  /\ is_member members0 "s1" "u1" = true
  /\ PostgresSchoolRepo.AddSchoolTeacher (codes := postgres_codes)
       Live "s1" "u1" {| tables := members0; faults := [] |}
     = (Some (Wrap ErrDuplicate (Error duplicate_error)),
        {| tables := members0; faults := [] |}).
Proof.
  destruct (unique_violation_is_duplicate (codes := postgres_codes)
              (userSchema := row_entity) (schoolSchema := row_entity)
              (reviewSchema := row_entity) (certificateSchema := row_entity)
              Live duplicate_error eq_refl)
    as (Huser & _ & _ & _ & _ & Hmember).
  split; [reflexivity|]. split; [reflexivity|]. split; [|split; [reflexivity|]].
  - exact (Huser user1 {| tables := users0; faults := [] |}
             {| tables := users0; faults := [] |} eq_refl).
  - exact (Hmember "s1" "u1" {| tables := members0; faults := [] |}
             eq_refl eq_refl eq_refl).
Defined.


(** Updates the driver fails with the unique-violation and with the
    enumerated-value code. *)
Lemma update_failure_is_update_failed_witness :
  update_fails (codes := postgres_codes) Live "user" user1
    (failing duplicate_error users0) duplicate_error
    {| tables := users0; faults := [] |}
  /\ update_fails (codes := postgres_codes) Live "user" user1
       (failing enum_error users0) enum_error
       {| tables := users0; faults := [] |}
  /\ fst (PostgresUserRepo.Update (codes := postgres_codes)
            (userSchema := row_entity) Live user1
            (failing duplicate_error users0))
     = ([], Some (Wrap ErrUpdateFailed (Error duplicate_error)))
  /\ fst (PostgresUserRepo.Update (codes := postgres_codes)
            (userSchema := row_entity) Live user1
            (failing enum_error users0))
     = ([], Some (Wrap ErrUpdateFailed (Error enum_error))).
Proof.
  destruct (proj1 (update_failure_is_update_failed (codes := postgres_codes)
                     (userSchema := row_entity) (schoolSchema := row_entity)))
    as (Hfail & _ & _).
  split; [reflexivity|]. split; [reflexivity|]. split.
  - exact (Hfail Live user1 (failing duplicate_error users0) duplicate_error
             _ eq_refl).
  - exact (Hfail Live user1 (failing enum_error users0) enum_error
             _ eq_refl).
Defined.

(** [FindByID] of the user repository for a user the store does not
    hold. *)
Lemma failures_classified_witness :
  unclassified (UserFindByID (User := Row) (School := Row) (Review := Row)
                  (Certificate := Row) "u9") = false
  /\ fst (call_error (codes := postgres_codes) (userSchema := row_entity)
            (schoolSchema := row_entity) (courseSchema := row_entity)
            (reviewSchema := row_entity) (certificateSchema := row_entity)
            Live (UserFindByID "u9") world0)
     = Some (Wrap ErrNotExist "sql: no rows in result set")
  /\ exists k m, Wrap ErrNotExist "sql: no rows in result set" = Wrap k m.
Proof.
  split; [reflexivity|]. split; [reflexivity|].
  exact (failures_classified (codes := postgres_codes)
           (userSchema := row_entity) (schoolSchema := row_entity)
           (courseSchema := row_entity) (reviewSchema := row_entity)
           (certificateSchema := row_entity)
           Live (UserFindByID "u9") world0 _ eq_refl eq_refl).
Defined.

(** * Further properties *)

(** ** Reads that reach the store *)

Lemma map_project_star (rs : list Row) : map (project ["*"]) rs = rs.
Proof.
  induction rs as [|r rs IH]; [reflexivity|].
  cbn [map]. rewrite IH. reflexivity.
Qed.

Lemma holds_one c key r :
  holds [(c, 0)] [key] r = String.eqb (col c r) key.
Proof. unfold holds; simpl. apply andb_true_r. Qed.

Lemma holds_two c1 c2 k1 k2 r :
  holds [(c1, 0); (c2, 1)] [k1; k2] r
  = String.eqb (col c1 r) k1 && String.eqb (col c2 r) k2.
Proof. unfold holds; simpl. rewrite andb_true_r. reflexivity. Qed.

Lemma first_row_find (p : Row -> bool) (rs : list Row) :
  first_row (List.filter p rs)
  = match List.find p rs with
    | Some r => inl r
    | None => inr ErrNoRows
    end.
Proof.
  induction rs as [|r rs IH]; [reflexivity|].
  cbn [List.filter List.find]. destruct (p r); [reflexivity | exact IH].
Qed.

Lemma find_ext_bool (p q : Row -> bool) (rs : list Row) :
  (forall r, p r = q r) -> List.find p rs = List.find q rs.
Proof.
  intros Hpq. induction rs as [|r rs IH]; [reflexivity|].
  cbn [List.find]. rewrite Hpq, IH. reflexivity.
Qed.

Section Selects.
Context {codes : PgCodes}.

Lemma SelectContext_where ctx q tbl conds args w :
  parse q = Some (SqlSelect ["*"] tbl conds) ->
  ctxErr ctx = None -> quiet 1 w = true ->
  SelectContext ctx q args w
  = (inl (List.filter (holds conds args) (rows_of (tables w) tbl)),
     after 1 (tables w) w).
Proof.
  intros Hp Hc Hq. unfold SelectContext.
  rewrite driver_call_quiet by assumption.
  unfold run_query. rewrite Hp. cbn [run_stmt fst snd].
  rewrite map_project_star. reflexivity.
Qed.

Lemma GetContext_where ctx q tbl conds args w :
  parse q = Some (SqlSelect ["*"] tbl conds) ->
  ctxErr ctx = None -> quiet 1 w = true ->
  GetContext ctx q args w
  = (match List.find (holds conds args) (rows_of (tables w) tbl) with
     | Some r => inl r
     | None => inr ErrNoRows
     end, after 1 (tables w) w).
Proof.
  intros Hp Hc Hq. unfold GetContext.
  rewrite driver_call_quiet by assumption.
  unfold run_query. rewrite Hp. cbn [run_stmt fst snd].
  rewrite map_project_star, first_row_find. reflexivity.
Qed.
End Selects.

(** Settles [finds_all] for the [FindAll] of a repository. *)
Ltac solve_finds_all q tbl :=
  intros ctx w Hc Hq;
  cbv beta delta [PostgresUserRepo.FindAll PostgresSchoolRepo.FindAll
    PostgresReviewRepo.FindAll PostgresCertificateRepo.FindAll bind];
  rewrite (SelectContext_where ctx q tbl [] [] w eq_refl Hc Hq);
  cbv beta iota; unfold holds; cbn [forallb];
  replace (List.filter (fun _ : Row => true) (rows_of (tables w) tbl))
    with (rows_of (tables w) tbl);
  [reflexivity|];
  induction (rows_of (tables w) tbl) as [|r rs IH]; [reflexivity|];
  cbn [List.filter]; rewrite <- IH; reflexivity.

(** X2.  In each of the four repositories a [FindAll] that reaches the
    store returns every row of the relation, converted, in the store's
    order, with a nil error: for an empty relation the empty list, and not
    [NotFound]. *)
Theorem find_all_returns_every_row {codes : PgCodes}
  {User School Review Certificate : Type}
  {userSchema : RowSchema User} {schoolSchema : RowSchema School}
  {reviewSchema : RowSchema Review}
  {certificateSchema : RowSchema Certificate} :
  finds_all (E := User) PostgresUserRepo.FindAll "public.user"
  /\ finds_all (E := School) PostgresSchoolRepo.FindAll "public.school"
  /\ finds_all (E := Review) PostgresReviewRepo.FindAll "public.review"
  /\ finds_all (E := Certificate) PostgresCertificateRepo.FindAll
       "public.certificate".
Proof.
  split; [|split; [|split]].
  - solve_finds_all PostgresUserRepo.userFindAllQuery "public.user".
  - solve_finds_all PostgresSchoolRepo.schoolFindAllQuery "public.school".
  - solve_finds_all PostgresReviewRepo.reviewFindAllQuery "public.review".
  - solve_finds_all PostgresCertificateRepo.certificateFindAllQuery
      "public.certificate".
Qed.

(** Settles [finds_where] for a finder by foreign key. *)
Ltac solve_finds_where q tbl c :=
  intros ctx key w Hc Hq;
  cbv beta delta [PostgresSchoolRepo.FindUserSchools
    PostgresSchoolRepo.FindSchoolCourses PostgresReviewRepo.FindUserReviews
    PostgresReviewRepo.FindCourseReviews
    PostgresCertificateRepo.FindUserCertificates bind];
  rewrite (SelectContext_where ctx q tbl [(c, 0)] [key] w eq_refl Hc Hq);
  cbv beta iota;
  rewrite (filter_ext _ _ (holds_one c key)); reflexivity.

(** X3.  The finders by foreign key that reach the store return exactly
    the rows of their relation whose key column holds the identifier asked
    for, converted, in the store's order, with a nil error: the schools of
    an owner, the courses of a school, the reviews of a user and of a
    course, the certificates of a user. *)
Theorem finders_by_foreign_key {codes : PgCodes}
  {School Course Review Certificate : Type}
  {schoolSchema : RowSchema School} {courseSchema : RowSchema Course}
  {reviewSchema : RowSchema Review}
  {certificateSchema : RowSchema Certificate} :
  finds_where (E := School) PostgresSchoolRepo.FindUserSchools
    "public.school" "owner_id"
  /\ finds_where (E := Course) PostgresSchoolRepo.FindSchoolCourses
       "public.course" "school_id"
  /\ finds_where (E := Review) PostgresReviewRepo.FindUserReviews
       "public.review" "user_id"
  /\ finds_where (E := Review) PostgresReviewRepo.FindCourseReviews
       "public.review" "course_id"
  /\ finds_where (E := Certificate)
       PostgresCertificateRepo.FindUserCertificates
       "public.certificate" "user_id".
Proof.
  split; [|split; [|split; [|split]]].
  - solve_finds_where PostgresSchoolRepo.schoolFindUserSchoolsQuery
      "public.school" "owner_id".
  - solve_finds_where PostgresSchoolRepo.schoolFindSchoolCoursesQuery
      "public.course" "school_id".
  - solve_finds_where PostgresReviewRepo.reviewFindUserReviewsQuery
      "public.review" "user_id".
  - solve_finds_where PostgresReviewRepo.reviewFindCourseReviewsQuery
      "public.review" "course_id".
  - solve_finds_where
      PostgresCertificateRepo.certificateFindUserCertificatesQuery
      "public.certificate" "user_id".
Qed.

(** Settles [found_on_presence] for the [FindByID] of a repository. *)
Ltac solve_found q tbl :=
  intros ctx id w r Hc Hq Hr;
  cbv beta delta [PostgresUserRepo.FindByID PostgresSchoolRepo.FindByID
    PostgresReviewRepo.FindByID PostgresCertificateRepo.FindByID bind];
  rewrite (GetContext_by_id ctx q tbl id w eq_refl Hc Hq), Hr;
  cbv beta iota delta [ret];
  split;
  [ reflexivity
  | intros Hid; cbn [fst]; rewrite Hid; exact (row_by_id_id _ _ _ _ Hr) ].

(** X4.  In each of the four repositories a [FindByID] that reaches the
    store, for an identifier some row has, returns the first such row
    converted, with a nil error; where conversion keeps the identifier the
    entity returned has the identifier asked for. *)
Theorem find_by_id_of_present_row {codes : PgCodes}
  {User School Review Certificate : Type}
  {userSchema : RowSchema User} {schoolSchema : RowSchema School}
  {reviewSchema : RowSchema Review}
  {certificateSchema : RowSchema Certificate} :
  found_on_presence (E := User) PostgresUserRepo.FindByID "public.user"
  /\ found_on_presence (E := School) PostgresSchoolRepo.FindByID
       "public.school"
  /\ found_on_presence (E := Review) PostgresReviewRepo.FindByID
       "public.review"
  /\ found_on_presence (E := Certificate) PostgresCertificateRepo.FindByID
       "public.certificate".
Proof.
  split; [|split; [|split]].
  - solve_found PostgresUserRepo.userFindByIDQuery "public.user".
  - solve_found PostgresSchoolRepo.schoolFindByIDQuery "public.school".
  - solve_found PostgresReviewRepo.reviewFindByIDQuery "public.review".
  - solve_found PostgresCertificateRepo.certificateFindByIDQuery
      "public.certificate".
Qed.

Section KeyedFinders.
Context {codes : PgCodes}.

(** A read of one row that gave a row reached the store and found it
    there, the first row that satisfies the conditions. *)
Lemma GetContext_where_ok ctx q tbl conds args w row w' :
  parse q = Some (SqlSelect ["*"] tbl conds) ->
  GetContext ctx q args w = (inl row, w') ->
  ctxErr ctx = None /\ quiet 1 w = true /\ w' = after 1 (tables w) w
  /\ List.find (holds conds args) (rows_of (tables w) tbl) = Some row.
Proof.
  intros Hp Hg.
  destruct (ctxErr ctx) as [e|] eqn:Hc.
  { rewrite (GetContext_done ctx e) in Hg by exact Hc. discriminate. }
  destruct (quiet 1 w) eqn:Hq.
  - rewrite (GetContext_where ctx q tbl conds args w Hp Hc Hq) in Hg.
    destruct (List.find (holds conds args) (rows_of (tables w) tbl));
      inversion Hg; subst. auto.
  - destruct w as [t [|[e|] fs]]; try discriminate Hq.
    unfold GetContext in Hg. rewrite driver_call_fault in Hg by exact Hc.
    discriminate.
Qed.

Context {User Certificate : Type}
  {userSchema : RowSchema User} {certificateSchema : RowSchema Certificate}.

(** X5.  The finders of one row by a key other than the identifier, when
    they reach the store: [FindByEmail] returns the first user whose
    [email] is the one given, [FindByCredentials] the first user whose
    [email] and [password] are both the ones given,
    [FindUserCourseCertificate] the first certificate whose [course_id] and
    [user_id] are the ones given, in that order of arguments; each returns
    [NotFound] with the zero entity when there is no such row. *)
Theorem finders_by_key :
  (forall ctx email w,
      ctxErr ctx = None -> quiet 1 w = true ->
      PostgresUserRepo.FindByEmail (User := User) ctx email w
      = (one_of (fun r => String.eqb (col "email" r) email)
           (rows_of (tables w) "public.user"),
         after 1 (tables w) w))
  /\ (forall ctx email password w,
         ctxErr ctx = None -> quiet 1 w = true ->
         PostgresUserRepo.FindByCredentials (User := User)
           ctx email password w
         = (one_of (fun r => String.eqb (col "email" r) email
                             && String.eqb (col "password" r) password)
              (rows_of (tables w) "public.user"),
            after 1 (tables w) w))
  /\ (forall ctx courseID userID w,
         ctxErr ctx = None -> quiet 1 w = true ->
         PostgresCertificateRepo.FindUserCourseCertificate
           (Certificate := Certificate) ctx courseID userID w
         = (one_of (fun r => String.eqb (col "course_id" r) courseID
                             && String.eqb (col "user_id" r) userID)
              (rows_of (tables w) "public.certificate"),
            after 1 (tables w) w)).
Proof.
  split; [|split].
  - intros ctx email w Hc Hq. unfold PostgresUserRepo.FindByEmail, bind.
    rewrite (GetContext_where ctx PostgresUserRepo.userFindByEmailQuery
               "public.user" [("email", 0)] [email] w eq_refl Hc Hq).
    rewrite (find_ext_bool _ _ _ (holds_one "email" email)).
    unfold one_of. destruct (List.find _ _); reflexivity.
  - intros ctx email password w Hc Hq.
    unfold PostgresUserRepo.FindByCredentials, bind.
    rewrite (GetContext_where ctx PostgresUserRepo.userFindByCredentialsQuery
               "public.user" [("email", 0); ("password", 1)]
               [email; password] w eq_refl Hc Hq).
    rewrite (find_ext_bool _ _ _
               (holds_two "email" "password" email password)).
    unfold one_of. destruct (List.find _ _); reflexivity.
  - intros ctx courseID userID w Hc Hq.
    unfold PostgresCertificateRepo.FindUserCourseCertificate, bind.
    rewrite (GetContext_where ctx
               PostgresCertificateRepo.certificateFindByCourseAndUserIDQuery
               "public.certificate" [("course_id", 0); ("user_id", 1)]
               [courseID; userID] w eq_refl Hc Hq).
    rewrite (find_ext_bool _ _ _
               (holds_two "course_id" "user_id" courseID userID)).
    unfold one_of. destruct (List.find _ _); reflexivity.
Qed.

(** X6.  [FindByCredentials] returns a user with a nil error only if a row
    of the user relation has both the email and the password given, and
    the user returned is that row converted; the store is as it was. *)
Theorem credentials_are_checked ctx email password w (u : User) w' :
  PostgresUserRepo.FindByCredentials ctx email password w
  = ((u, None), w') ->
  tables w' = tables w
  /\ exists r,
      In r (rows_of (tables w) "public.user")
      /\ col "email" r = email /\ col "password" r = password
      /\ u = ToDomain r.
Proof.
  unfold PostgresUserRepo.FindByCredentials, bind.
  destruct (GetContext ctx PostgresUserRepo.userFindByCredentialsQuery
              [email; password] w) as [[row|err] w1] eqn:Hg.
  - intros Hr. inversion Hr; subst; clear Hr.
    destruct (GetContext_where_ok ctx
                PostgresUserRepo.userFindByCredentialsQuery "public.user"
                [("email", 0); ("password", 1)] _ _ _ _ eq_refl Hg)
      as (_ & _ & Hw & Hf).
    split; [rewrite Hw; reflexivity|].
    apply find_some in Hf as [Hin Hh].
    rewrite holds_two in Hh. apply andb_prop in Hh as [He Hp].
    exists row. repeat split;
      [exact Hin | apply String.eqb_eq, He | apply String.eqb_eq, Hp].
  - destruct (isErrNoRows err); discriminate.
Qed.

(** X7.  [FindUserInfo] that reaches the store returns the [name] and the
    [surname] of the first user row with the identifier asked for, the row
    [FindByID] converts, with a nil error; with no such row it returns
    [NotFound] and an empty [UserInfo]. *)
Theorem find_user_info_of_row ctx userID w :
  ctxErr ctx = None -> quiet 1 w = true ->
  PostgresUserRepo.FindUserInfo ctx userID w
  = (match row_by_id (tables w) "public.user" userID with
     | Some r =>
         ({| Name := col "name" r; Surname := col "surname" r |}, None)
     | None =>
         ({| Name := ""; Surname := "" |},
          Some (Wrap ErrNotExist (Error ErrNoRows)))
     end, after 1 (tables w) w).
Proof.
  intros Hc Hq. unfold PostgresUserRepo.FindUserInfo, bind, GetContext.
  rewrite driver_call_quiet by assumption.
  unfold run_query.
  change (parse PostgresUserRepo.userFindUserInfoQuery)
    with (Some (SqlSelect ["name"; "surname"] "public.user" [("id", 0)])).
  cbn [run_stmt fst snd]. unfold row_by_id.
  induction (rows_of (tables w) "public.user") as [|r rs IH];
    [reflexivity|].
  cbn [List.filter List.find]. rewrite holds_id.
  destruct (String.eqb (col "id" r) userID); [reflexivity | exact IH].
Qed.
End KeyedFinders.

(** ** Memberships *)

Lemma bool_of_text (b : bool) :
  String.eqb (if b then "true" else "false") "true" = b.
Proof. destruct b; reflexivity. Qed.

Lemma member_holds (rs : list Row) schoolID teacherID :
  existsb (holds [("school_id", 0); ("teacher_id", 1)] [schoolID; teacherID])
    rs
  = existsb (fun r => String.eqb teacherID (col "teacher_id" r)
                      && String.eqb schoolID (col "school_id" r)) rs.
Proof.
  induction rs as [|r rs IH]; [reflexivity|].
  cbn [existsb]. rewrite IH, holds_two. f_equal.
  rewrite (String.eqb_sym (col "school_id" r)),
    (String.eqb_sym (col "teacher_id" r)).
  apply andb_comm.
Qed.

Lemma rows_of_insert tbl rs (t : Tables) : rows_of (<[tbl := rs]> t) tbl = rs.
Proof. unfold rows_of. rewrite lookup_insert_eq. reflexivity. Qed.

Lemma rows_of_insert_ne tbl tbl' rs (t : Tables) :
  tbl <> tbl' -> rows_of (<[tbl := rs]> t) tbl' = rows_of t tbl'.
Proof. intros Hne. unfold rows_of. rewrite lookup_insert_ne; done. Qed.

Section Memberships.
Context {codes : PgCodes}.

Lemma IsSchoolTeacher_member ctx schoolID teacherID w :
  ctxErr ctx = None -> quiet 1 w = true ->
  PostgresSchoolRepo.IsSchoolTeacher ctx schoolID teacherID w
  = ((is_member (tables w) schoolID teacherID, None), after 1 (tables w) w).
Proof.
  intros Hc Hq. unfold PostgresSchoolRepo.IsSchoolTeacher, bind, GetContext.
  rewrite driver_call_quiet by assumption.
  unfold run_query.
  change (parse PostgresSchoolRepo.schoolContainsTeacherQuery)
    with (Some (SqlExists "public.school_teacher"
                  [("school_id", 0); ("teacher_id", 1)])).
  cbn [run_stmt fst snd first_row]. rewrite member_holds.
  cbv beta iota delta [ret].
  change (col "exists" [("exists", ?x)]) with x.
  rewrite bool_of_text. reflexivity.
Qed.

(** X8.  [IsSchoolTeacher] that reaches the store returns, with a nil
    error, whether the join relation holds a row with the school and the
    teacher asked for, and leaves the store as it was. *)
Theorem is_school_teacher_reads_membership ctx schoolID teacherID w :
  ctxErr ctx = None -> quiet 1 w = true ->
  PostgresSchoolRepo.IsSchoolTeacher ctx schoolID teacherID w
  = ((is_member (tables w) schoolID teacherID, None), after 1 (tables w) w).
Proof. apply IsSchoolTeacher_member. Qed.

Lemma AddSchoolTeacher_new ctx schoolID teacherID w :
  ctxErr ctx = None -> quiet 1 w = true ->
  is_member (tables w) schoolID teacherID = false ->
  PostgresSchoolRepo.AddSchoolTeacher ctx schoolID teacherID w
  = (None,
     after 1
       (<["public.school_teacher" :=
            (rows_of (tables w) "public.school_teacher"
             ++ [[("teacher_id", teacherID); ("school_id", schoolID)]])%list]>
          (tables w)) w).
Proof.
  intros Hc Hq Hm.
  unfold PostgresSchoolRepo.AddSchoolTeacher, ExecContext, bind.
  rewrite driver_call_quiet by assumption.
  unfold run_query.
  change (parse PostgresSchoolRepo.schoolAddTeacherQuery)
    with (Some (SqlInsert "public.school_teacher"
                  ["teacher_id"; "school_id"] [0; 1])).
  cbn [run_stmt map combine arg nth]. unfold insert_row.
  unfold is_member in Hm. rewrite same_key_member, Hm. reflexivity.
Qed.

(** X9.  [AddSchoolTeacher] of a membership the join relation does not
    hold, when it reaches the store, returns nil; an [IsSchoolTeacher] of
    the same school and teacher that follows returns true; and the
    membership of every other pair of school and teacher is as it was. *)
Theorem add_then_is_school_teacher ctx schoolID teacherID w :
  ctxErr ctx = None -> quiet 2 w = true ->
  is_member (tables w) schoolID teacherID = false ->
  exists w1,
    PostgresSchoolRepo.AddSchoolTeacher ctx schoolID teacherID w = (None, w1)
    /\ PostgresSchoolRepo.IsSchoolTeacher ctx schoolID teacherID w1
       = ((true, None), after 2 (tables w1) w)
    /\ (forall s t,
           (s, t) <> (schoolID, teacherID) ->
           is_member (tables w1) s t = is_member (tables w) s t).
Proof.
  intros Hc Hq Hm.
  pose proof (quiet_le 2 1 w ltac:(lia) Hq) as Hq1.
  eexists. split; [apply AddSchoolTeacher_new; assumption|].
  split.
  - rewrite IsSchoolTeacher_member;
      [|exact Hc | apply (quiet_after 1 1), Hq].
    rewrite after_after. cbn [tables after]. f_equal. f_equal.
    unfold is_member. rewrite rows_of_insert, existsb_app.
    cbn [existsb col]. simpl. rewrite !String.eqb_refl.
    apply orb_true_r.
  - intros s t Hne. cbn [tables after]. unfold is_member.
    rewrite rows_of_insert, existsb_app. cbn [existsb]. simpl.
    destruct (String.eqb t teacherID) eqn:Ht;
      destruct (String.eqb s schoolID) eqn:Hs;
      rewrite ?orb_false_r; try reflexivity.
    apply String.eqb_eq in Ht, Hs. subst. contradiction.
Qed.

(** X10.  [FindSchoolTeachers] that reaches the store returns, converted
    and with a nil error, rows of the user relation: a user row is among
    them exactly when the school relation has a row with the identifier
    asked for and the join relation holds the user's membership in it, the
    membership [IsSchoolTeacher] reports.  A school with no row has no
    teachers listed, whatever the join relation holds. *)
Theorem find_school_teachers_lists_members {User : Type}
  {userSchema : RowSchema User} ctx schoolID w :
  ctxErr ctx = None -> quiet 1 w = true ->
  exists us,
    PostgresSchoolRepo.FindSchoolTeachers (User := User) ctx schoolID w
    = ((map ToDomain us, None), after 1 (tables w) w)
    /\ (forall u,
           In u us
           <-> In u (rows_of (tables w) "public.user")
               /\ has_row (tables w) "public.school" schoolID = true
               /\ teaches (tables w) schoolID u).
Proof.
  intros Hc Hq.
  unfold PostgresSchoolRepo.FindSchoolTeachers, bind, SelectContext.
  rewrite driver_call_quiet by assumption.
  unfold run_query.
  change (parse PostgresSchoolRepo.schoolFindSchoolTeachersQuery)
    with (Some (SqlJoin "u" "public.user" "u" "public.school_teacher" "st"
                  (("u", "id"), ("st", "teacher_id"))
                  "public.school" "s" (("st", "school_id"), ("s", "id"))
                  (("s", "id"), 0))).
  cbn [run_stmt fst snd]. eexists. split; [reflexivity|].
  intros u. unfold join, teaches, is_member, has_row.
  rewrite in_flat_map. split.
  - intros (r1 & Hr1 & Hin).
    apply in_flat_map in Hin as (r2 & Hr2 & Hin).
    apply in_flat_map in Hin as (r3 & Hr3 & Hin).
    cbn in Hin.
    destruct (String.eqb (col "id" r1) (col "teacher_id" r2)) eqn:H1;
      [|destruct Hin].
    destruct (String.eqb (col "school_id" r2) (col "id" r3)) eqn:H2;
      [|destruct Hin].
    destruct (String.eqb (col "id" r3) schoolID) eqn:H3; [|destruct Hin].
    destruct Hin as [<-|[]].
    split; [exact Hr1|]. split.
    + apply existsb_exists. exists r3. split; [exact Hr3 | exact H3].
    + apply existsb_exists. exists r2. split; [exact Hr2|].
      apply String.eqb_eq in H2, H3. rewrite H1, <- H3, <- H2.
      rewrite String.eqb_refl. reflexivity.
  - intros (Hu & Hs & Hm).
    apply existsb_exists in Hs as (r3 & Hr3 & H3).
    apply existsb_exists in Hm as (r2 & Hr2 & H12).
    apply andb_prop in H12 as [H1 H2].
    exists u. split; [exact Hu|].
    apply in_flat_map. exists r2. split; [exact Hr2|].
    apply in_flat_map. exists r3. split; [exact Hr3|].
    cbn. rewrite H1, H3. apply String.eqb_eq in H2, H3.
    rewrite <- H2, H3, String.eqb_refl. left. reflexivity.
Qed.
End Memberships.

(** ** Deletes and updates followed by a read *)

Lemma rows_of_delete_rows tbl conds args (t : Tables) :
  rows_of (delete_rows tbl conds args t) tbl
  = List.filter (fun r => negb (holds conds args r)) (rows_of t tbl).
Proof.
  unfold delete_rows. rewrite rows_of_alter. unfold rows_of.
  destruct (t !! tbl); reflexivity.
Qed.

Lemma has_row_deleted tbl id (t : Tables) :
  has_row (delete_rows tbl [("id", 0)] [id] t) tbl id = false.
Proof.
  unfold has_row. rewrite rows_of_delete_rows.
  induction (rows_of t tbl) as [|r rs IH]; [reflexivity|].
  cbn [List.filter]. rewrite holds_id.
  destruct (String.eqb (col "id" r) id) eqn:Hr; cbn [negb existsb];
    [exact IH | rewrite Hr, IH; reflexivity].
Qed.

Lemma row_by_id_deleted_other tbl id id' (t : Tables) :
  id' <> id ->
  row_by_id (delete_rows tbl [("id", 0)] [id] t) tbl id'
  = row_by_id t tbl id'.
Proof.
  intros Hne. unfold row_by_id. rewrite rows_of_delete_rows.
  induction (rows_of t tbl) as [|r rs IH]; [reflexivity|].
  cbn [List.filter List.find]. rewrite holds_id.
  destruct (String.eqb (col "id" r) id) eqn:Hr; cbn [negb List.find].
  - apply String.eqb_eq in Hr.
    assert (String.eqb (col "id" r) id' = false) as ->
      by (apply String.eqb_neq; congruence).
    exact IH.
  - rewrite IH. reflexivity.
Qed.

(** Settles [delete_then_find] for a repository whose [Delete] sends [qd]
    and whose [FindByID] sends [qf], both on relation [tbl]. *)
Ltac solve_delete_then_find qd qf tbl :=
  intros ctx id w Hc Hq;
  pose proof (quiet_le 2 1 w ltac:(lia) Hq) as Hq1;
  exists (after 1 (delete_rows tbl [("id", 0)] [id] (tables w)) w);
  split;
  [ cbv beta delta [PostgresUserRepo.Delete PostgresSchoolRepo.Delete bind];
    rewrite (ExecContext_delete ctx qd tbl id w eq_refl Hc Hq1);
    reflexivity
  | split;
    [ cbv beta delta [PostgresUserRepo.FindByID PostgresSchoolRepo.FindByID
        bind];
      rewrite (GetContext_by_id ctx qf tbl id _ eq_refl Hc
                 (quiet_after 1 1 _ w Hq));
      cbn [tables after];
      rewrite (row_by_id_absent _ _ _ (has_row_deleted tbl id (tables w)));
      cbn [isErrNoRows ret]; rewrite after_after; reflexivity
    | intros id' Hne; cbn [tables after];
      apply row_by_id_deleted_other, Hne ] ].

(** X11.  In the user and the school repository, once [Delete] of an
    identifier has reached the store, a [FindByID] of that identifier
    returns [NotFound], and [FindByID] of any other identifier finds the
    row it found before. *)
Theorem delete_then_find_by_id {codes : PgCodes} {User School : Type}
  {userSchema : RowSchema User} {schoolSchema : RowSchema School} :
  delete_then_find (E := User) PostgresUserRepo.Delete
    PostgresUserRepo.FindByID "public.user"
  /\ delete_then_find (E := School) PostgresSchoolRepo.Delete
       PostgresSchoolRepo.FindByID "public.school".
Proof.
  split.
  - solve_delete_then_find PostgresUserRepo.userDeleteQuery
      PostgresUserRepo.userFindByIDQuery "public.user".
  - solve_delete_then_find PostgresSchoolRepo.schoolDeleteQuery
      PostgresSchoolRepo.schoolFindByIDQuery "public.school".
Qed.



(** ** Every method: kinds of error, zero values, writes and calls *)

Section Contract.
Context {codes : PgCodes} {User School Course Review Certificate : Type}
  {userSchema : RowSchema User} {schoolSchema : RowSchema School}
  {courseSchema : RowSchema Course} {reviewSchema : RowSchema Review}
  {certificateSchema : RowSchema Certificate}.

(** X13.  The kinds of error each method can return: [NotFound] or
    [PersistenceFailed] from a finder; [Duplicate], [PersistenceFailed] or
    [NotFound] from [Create], and [EnumValueError] besides from the
    certificate repository's; [UpdateFailed], [NotFound] or
    [PersistenceFailed] from [Update]; [DeleteFailed] alone from [Delete];
    [Duplicate] or [PersistenceFailed] from [AddSchoolTeacher]. *)
Theorem errors_within_contract ctx
  (c : @Call User School Review Certificate) w err :
  unclassified c = false ->
  fst (call_error (Course := Course) ctx c w) = Some err ->
  exists k m, err = Wrap k m /\ In k (allowed_kinds c).
Proof.
  intros Hc.
  destruct c; try discriminate Hc; clear Hc;
    cbv [call_error failure bind ret allowed_kinds
         PostgresUserRepo.FindAll PostgresUserRepo.FindByID
         PostgresUserRepo.FindByEmail PostgresUserRepo.FindByCredentials
         PostgresUserRepo.FindUserInfo PostgresUserRepo.Create
         PostgresUserRepo.Update PostgresUserRepo.Delete
         PostgresSchoolRepo.FindAll PostgresSchoolRepo.FindByID
         PostgresSchoolRepo.FindUserSchools
         PostgresSchoolRepo.FindSchoolCourses
         PostgresSchoolRepo.FindSchoolTeachers
         PostgresSchoolRepo.AddSchoolTeacher PostgresSchoolRepo.Create
         PostgresSchoolRepo.Update PostgresSchoolRepo.Delete
         PostgresReviewRepo.FindAll PostgresReviewRepo.FindByID
         PostgresReviewRepo.FindUserReviews
         PostgresReviewRepo.FindCourseReviews PostgresReviewRepo.Create
         PostgresReviewRepo.Delete
         PostgresCertificateRepo.FindAll PostgresCertificateRepo.FindByID
         PostgresCertificateRepo.FindUserCertificates
         PostgresCertificateRepo.FindUserCourseCertificate
         PostgresCertificateRepo.Create];
    repeat (destruct_driver; cbv beta iota);
    repeat match goal with
           | |- context [if ?b then _ else _] => destruct b
           | |- context [match ?x with Some _ => _ | None => _ end] =>
               destruct x
           end;
    cbn [fst snd]; intros [=]; subst;
    do 2 eexists; (split; [reflexivity|]);
    cbn [In]; repeat (first [left; reflexivity | right]).
Qed.
End Contract.

(** ** What the methods leave alone *)

Lemma preserves_ret {A} tbl (a : A) : preserves tbl (ret a).
Proof. intros w. reflexivity. Qed.

Lemma preserves_bind {A B} tbl (m : M A) (k : A -> M B) :
  preserves tbl m -> (forall a, preserves tbl (k a)) ->
  preserves tbl (bind m k).
Proof.
  intros Hm Hk w. unfold bind. specialize (Hm w).
  destruct (m w) as [a w1]. cbn [snd] in Hm. rewrite Hk. exact Hm.
Qed.

Lemma preserves_driver_call {A} ctx tbl
  (run : Tables -> (A + DriverErr) * Tables) :
  (forall t, rows_of (snd (run t)) tbl = rows_of t tbl) ->
  preserves tbl (driver_call ctx run).
Proof.
  intros Hrun w. unfold driver_call.
  destruct (ctxErr ctx); [reflexivity|].
  destruct (faults w) as [|[e|] fs]; try reflexivity;
    specialize (Hrun (tables w)); destruct (run (tables w)); exact Hrun.
Qed.

Section Frames.
Context {codes : PgCodes}.

Lemma insert_row_frame tbl tbl' r (t : Tables) :
  tbl <> tbl' -> rows_of (snd (insert_row tbl r t)) tbl' = rows_of t tbl'.
Proof.
  intros Hne. unfold insert_row.
  destruct (existsb _ _); cbn [snd]; [reflexivity|].
  apply rows_of_insert_ne, Hne.
Qed.

Lemma run_query_frame q args tbl (t : Tables) :
  query_target q <> Some tbl ->
  rows_of (snd (run_query q args t)) tbl = rows_of t tbl.
Proof.
  unfold query_target, run_query.
  destruct (parse q) as [st|]; [|reflexivity].
  destruct st; cbn [stmt_target run_stmt snd]; intros Hne;
    try reflexivity.
  - pose proof (insert_row_frame tbl0 tbl
                  (combine cols (map (fun k => arg k args) vals)) t) as Hi.
    destruct (insert_row _ _ _) as [[e|] t']; cbn [snd] in *;
      apply Hi; congruence.
  - apply rows_of_alter_ne. congruence.
Qed.

Lemma run_named_frame q r tbl (t : Tables) :
  named_target q <> tbl ->
  rows_of (snd (run_named q r t)) tbl = rows_of t tbl.
Proof.
  destruct q; cbn [named_target run_named]; intros Hne.
  - pose proof (insert_row_frame tbl0 tbl (pick cols r) t Hne) as Hi.
    destruct (insert_row _ _ _) as [[e|] t']; cbn [snd] in *; exact Hi.
  - cbn [snd]. apply rows_of_alter_ne, Hne.
Qed.

Lemma preserves_GetContext ctx q args tbl :
  query_target q <> Some tbl -> preserves tbl (GetContext ctx q args).
Proof.
  intros Hne. apply preserves_driver_call. intros t.
  pose proof (run_query_frame q args tbl t Hne) as Hr.
  destruct (run_query q args t) as [[rs|e] t']; exact Hr.
Qed.

Lemma preserves_SelectContext ctx q args tbl :
  query_target q <> Some tbl -> preserves tbl (SelectContext ctx q args).
Proof.
  intros Hne. apply preserves_driver_call. intros t.
  apply run_query_frame, Hne.
Qed.

Lemma preserves_ExecContext ctx q args tbl :
  query_target q <> Some tbl -> preserves tbl (ExecContext ctx q args).
Proof.
  intros Hne. apply preserves_bind; [|intros a; apply preserves_ret].
  apply preserves_driver_call. intros t. apply run_query_frame, Hne.
Qed.

Lemma preserves_NamedExecContext ctx q r tbl :
  Some (named_target q) <> Some tbl ->
  preserves tbl (NamedExecContext ctx q r).
Proof.
  intros Hne. apply preserves_bind; [|intros a; apply preserves_ret].
  apply preserves_driver_call. intros t. apply run_named_frame. congruence.
Qed.
End Frames.

(** Walks a method's body, one driver call after the other. *)
Ltac frame H :=
  lazymatch goal with
  | |- preserves _ (bind _ _) =>
      apply preserves_bind; [frame H | intros ?; cbv beta; frame H]
  | |- preserves _ (ret _) => apply preserves_ret
  | |- preserves _ (GetContext _ _ _) =>
      apply preserves_GetContext; first [exact H | discriminate]
  | |- preserves _ (SelectContext _ _ _) =>
      apply preserves_SelectContext; first [exact H | discriminate]
  | |- preserves _ (ExecContext _ _ _) =>
      apply preserves_ExecContext; first [exact H | discriminate]
  | |- preserves _ (NamedExecContext _ _ _) =>
      apply preserves_NamedExecContext; first [exact H | discriminate]
  | |- preserves _ (match ?x with inl _ => _ | inr _ => _ end) =>
      destruct x; frame H
  | |- preserves _ (match ?x with Some _ => _ | None => _ end) =>
      destruct x; frame H
  | |- preserves _ (if ?b then _ else _) => destruct b; frame H
  end.

Section Writes.
Context {codes : PgCodes} {User School Course Review Certificate : Type}
  {userSchema : RowSchema User} {schoolSchema : RowSchema School}
  {courseSchema : RowSchema Course} {reviewSchema : RowSchema Review}
  {certificateSchema : RowSchema Certificate}.

(** X14.  No method changes the rows of a relation other than the one its
    write statement names, whatever becomes of its driver calls: the
    finders and [IsSchoolTeacher] change none; [Create], [Update] and
    [Delete] of the user and the school repository and [Create] of the
    review and the certificate repository only their own relation;
    [AddSchoolTeacher] only the join relation; and the review repository's
    [Delete] only the school relation. *)
Theorem writes_stay_in_their_relation ctx
  (c : @Call User School Review Certificate) tbl :
  touched c <> Some tbl ->
  preserves tbl (call_error (Course := Course) ctx c).
Proof.
  intros H.
  destruct c; cbn [touched] in H;
    cbv beta iota zeta delta
      [call_error failure
       PostgresUserRepo.FindAll PostgresUserRepo.FindByID
       PostgresUserRepo.FindByEmail PostgresUserRepo.FindByCredentials
       PostgresUserRepo.FindUserInfo PostgresUserRepo.Create
       PostgresUserRepo.Update PostgresUserRepo.Delete
       PostgresSchoolRepo.FindAll PostgresSchoolRepo.FindByID
       PostgresSchoolRepo.FindUserSchools
       PostgresSchoolRepo.FindSchoolCourses
       PostgresSchoolRepo.FindSchoolTeachers
       PostgresSchoolRepo.IsSchoolTeacher
       PostgresSchoolRepo.AddSchoolTeacher PostgresSchoolRepo.Create
       PostgresSchoolRepo.Update PostgresSchoolRepo.Delete
       PostgresReviewRepo.FindAll PostgresReviewRepo.FindByID
       PostgresReviewRepo.FindUserReviews
       PostgresReviewRepo.FindCourseReviews PostgresReviewRepo.Create
       PostgresReviewRepo.Delete
       PostgresCertificateRepo.FindAll PostgresCertificateRepo.FindByID
       PostgresCertificateRepo.FindUserCertificates
       PostgresCertificateRepo.FindUserCourseCertificate
       PostgresCertificateRepo.Create];
    frame H.
Qed.
End Writes.

(** ** How often the driver is called *)

Lemma calls_at_most_ret {A} n (a : A) : calls_at_most n (ret a).
Proof. intros w. exists 0. split; [lia | reflexivity]. Qed.

Lemma calls_at_most_call {A B} n (m : M A) (k : A -> M B) :
  calls_at_most 1 m -> (forall a, calls_at_most n (k a)) ->
  calls_at_most (S n) (bind m k).
Proof.
  intros Hm Hk w. unfold bind. destruct (Hm w) as (i & Hi & Hfi).
  destruct (m w) as [a w1]. cbn [snd] in Hfi.
  destruct (Hk a w1) as (j & Hj & Hfj).
  exists (i + j). split; [lia|].
  rewrite Hfj, Hfi, skipn_skipn. f_equal. lia.
Qed.

Lemma calls_at_most_pure {A B} n (m : M A) (k : A -> M B) :
  calls_at_most n m -> (forall a, calls_at_most 0 (k a)) ->
  calls_at_most n (bind m k).
Proof.
  intros Hm Hk w. unfold bind. destruct (Hm w) as (i & Hi & Hfi).
  destruct (m w) as [a w1]. cbn [snd] in Hfi.
  destruct (Hk a w1) as (j & Hj & Hfj).
  exists i. split; [exact Hi|].
  assert (j = 0) as -> by lia. rewrite Hfj, Hfi. reflexivity.
Qed.

Lemma calls_driver_call {A} ctx (run : Tables -> (A + DriverErr) * Tables) :
  calls_at_most 1 (driver_call ctx run).
Proof.
  intros w. unfold driver_call.
  destruct (ctxErr ctx); [exists 0; split; [lia | reflexivity]|].
  exists 1. split; [lia|].
  destruct (faults w) as [|[e|] fs]; try reflexivity;
    destruct (run (tables w)); reflexivity.
Qed.

Section Calls1.
Context {codes : PgCodes}.

Lemma calls_GetContext ctx q args : calls_at_most 1 (GetContext ctx q args).
Proof. apply calls_driver_call. Qed.

Lemma calls_SelectContext ctx q args :
  calls_at_most 1 (SelectContext ctx q args).
Proof. apply calls_driver_call. Qed.

Lemma calls_ExecContext ctx q args : calls_at_most 1 (ExecContext ctx q args).
Proof.
  apply calls_at_most_pure; [apply calls_driver_call|].
  intros a. apply calls_at_most_ret.
Qed.

Lemma calls_NamedExecContext ctx q r :
  calls_at_most 1 (NamedExecContext ctx q r).
Proof.
  apply calls_at_most_pure; [apply calls_driver_call|].
  intros a. apply calls_at_most_ret.
Qed.
End Calls1.

(** Counts the driver calls along a method's body. *)
Ltac count :=
  lazymatch goal with
  | |- calls_at_most _ (ret _) => apply calls_at_most_ret
  | |- calls_at_most _ (bind (GetContext _ _ _) _) =>
      apply calls_at_most_call;
      [apply calls_GetContext | intros ?; cbv beta; count]
  | |- calls_at_most _ (bind (SelectContext _ _ _) _) =>
      apply calls_at_most_call;
      [apply calls_SelectContext | intros ?; cbv beta; count]
  | |- calls_at_most _ (bind (ExecContext _ _ _) _) =>
      apply calls_at_most_call;
      [apply calls_ExecContext | intros ?; cbv beta; count]
  | |- calls_at_most _ (bind (NamedExecContext _ _ _) _) =>
      apply calls_at_most_call;
      [apply calls_NamedExecContext | intros ?; cbv beta; count]
  | |- calls_at_most _ (bind _ _) =>
      apply calls_at_most_pure;
      [count | intros ?; cbv beta; apply calls_at_most_ret]
  | |- calls_at_most _ (match ?x with inl _ => _ | inr _ => _ end) =>
      destruct x; count
  | |- calls_at_most _ (match ?x with Some _ => _ | None => _ end) =>
      destruct x; count
  | |- calls_at_most _ (if ?b then _ else _) => destruct b; count
  end.

Section NoRetry.
Context {codes : PgCodes} {User School Course Review Certificate : Type}
  {userSchema : RowSchema User} {schoolSchema : RowSchema School}
  {courseSchema : RowSchema Course} {reviewSchema : RowSchema Review}
  {certificateSchema : RowSchema Certificate}.

(** X15.  No method repeats a statement: whatever the driver answers,
    [Create] and [Update] call it at most twice, the write and the
    read-back, and every other method at most once. *)
Theorem no_method_retries ctx (c : @Call User School Review Certificate) :
  calls_at_most (max_calls c) (call_error (Course := Course) ctx c).
Proof.
  destruct c; cbn [max_calls];
    cbv beta iota zeta delta
      [call_error failure
       PostgresUserRepo.FindAll PostgresUserRepo.FindByID
       PostgresUserRepo.FindByEmail PostgresUserRepo.FindByCredentials
       PostgresUserRepo.FindUserInfo PostgresUserRepo.Create
       PostgresUserRepo.Update PostgresUserRepo.Delete
       PostgresSchoolRepo.FindAll PostgresSchoolRepo.FindByID
       PostgresSchoolRepo.FindUserSchools
       PostgresSchoolRepo.FindSchoolCourses
       PostgresSchoolRepo.FindSchoolTeachers
       PostgresSchoolRepo.IsSchoolTeacher
       PostgresSchoolRepo.AddSchoolTeacher PostgresSchoolRepo.Create
       PostgresSchoolRepo.Update PostgresSchoolRepo.Delete
       PostgresReviewRepo.FindAll PostgresReviewRepo.FindByID
       PostgresReviewRepo.FindUserReviews
       PostgresReviewRepo.FindCourseReviews PostgresReviewRepo.Create
       PostgresReviewRepo.Delete
       PostgresCertificateRepo.FindAll PostgresCertificateRepo.FindByID
       PostgresCertificateRepo.FindUserCertificates
       PostgresCertificateRepo.FindUserCourseCertificate
       PostgresCertificateRepo.Create];
    count.
Qed.
End NoRetry.

(** ** Values returned with an error *)

(** Settles [zero_on_error] for a method. *)
Ltac solve_zero :=
  intros w;
  cbv beta iota zeta delta
    [bind ret
     PostgresUserRepo.FindAll PostgresUserRepo.FindByID
     PostgresUserRepo.FindByEmail PostgresUserRepo.FindByCredentials
     PostgresUserRepo.FindUserInfo PostgresUserRepo.Create
     PostgresUserRepo.Update
     PostgresSchoolRepo.FindAll PostgresSchoolRepo.FindByID
     PostgresSchoolRepo.FindUserSchools
     PostgresSchoolRepo.FindSchoolCourses
     PostgresSchoolRepo.FindSchoolTeachers
     PostgresSchoolRepo.IsSchoolTeacher PostgresSchoolRepo.Create
     PostgresSchoolRepo.Update
     PostgresReviewRepo.FindAll PostgresReviewRepo.FindByID
     PostgresReviewRepo.FindUserReviews
     PostgresReviewRepo.FindCourseReviews PostgresReviewRepo.Create
     PostgresCertificateRepo.FindAll PostgresCertificateRepo.FindByID
     PostgresCertificateRepo.FindUserCertificates
     PostgresCertificateRepo.FindUserCourseCertificate
     PostgresCertificateRepo.Create];
  repeat (destruct_driver; cbv beta iota);
  repeat match goal with
         | |- context [if ?b then _ else _] => destruct b
         | |- context [match ?x with Some _ => _ | None => _ end] =>
             destruct x
         end;
  cbn [fst snd]; intros Hn; first [reflexivity | contradiction].

Section ZeroValues.
Context {codes : PgCodes} {User School Course Review Certificate : Type}
  {userSchema : RowSchema User} {schoolSchema : RowSchema School}
  {courseSchema : RowSchema Course} {reviewSchema : RowSchema Review}
  {certificateSchema : RowSchema Certificate}.

(** X16.  A method that returns an error returns no data with it: the
    zero entity from the methods that return one entity, the nil list from
    those that return a list, an empty [UserInfo] from [FindUserInfo] and
    [false] from [IsSchoolTeacher]. *)
Theorem error_comes_with_zero_value ctx :
  (zero_on_error (@nil User) (PostgresUserRepo.FindAll ctx)
   /\ (forall id, zero_on_error (zero : User)
                    (PostgresUserRepo.FindByID ctx id))
   /\ (forall email, zero_on_error (zero : User)
                       (PostgresUserRepo.FindByEmail ctx email))
   /\ (forall email password,
          zero_on_error (zero : User)
            (PostgresUserRepo.FindByCredentials ctx email password))
   /\ (forall id, zero_on_error {| Name := ""; Surname := "" |}
                    (PostgresUserRepo.FindUserInfo ctx id))
   /\ (forall user : User,
          zero_on_error zero (PostgresUserRepo.Create ctx user))
   /\ (forall user : User,
          zero_on_error zero (PostgresUserRepo.Update ctx user)))
  /\ (zero_on_error (@nil School) (PostgresSchoolRepo.FindAll ctx)
      /\ (forall id, zero_on_error (zero : School)
                       (PostgresSchoolRepo.FindByID ctx id))
      /\ (forall id, zero_on_error (@nil School)
                       (PostgresSchoolRepo.FindUserSchools ctx id))
      /\ (forall id, zero_on_error (@nil Course)
                       (PostgresSchoolRepo.FindSchoolCourses ctx id))
      /\ (forall id, zero_on_error (@nil User)
                       (PostgresSchoolRepo.FindSchoolTeachers ctx id))
      /\ (forall schoolID teacherID,
             zero_on_error false
               (PostgresSchoolRepo.IsSchoolTeacher ctx schoolID teacherID))
      /\ (forall school : School,
             zero_on_error zero (PostgresSchoolRepo.Create ctx school))
      /\ (forall school : School,
             zero_on_error zero (PostgresSchoolRepo.Update ctx school)))
  /\ (zero_on_error (@nil Review) (PostgresReviewRepo.FindAll ctx)
      /\ (forall id, zero_on_error (zero : Review)
                       (PostgresReviewRepo.FindByID ctx id))
      /\ (forall id, zero_on_error (@nil Review)
                       (PostgresReviewRepo.FindUserReviews ctx id))
      /\ (forall id, zero_on_error (@nil Review)
                       (PostgresReviewRepo.FindCourseReviews ctx id))
      /\ (forall review : Review,
             zero_on_error zero (PostgresReviewRepo.Create ctx review)))
  /\ (zero_on_error (@nil Certificate) (PostgresCertificateRepo.FindAll ctx)
      /\ (forall id, zero_on_error (zero : Certificate)
                       (PostgresCertificateRepo.FindByID ctx id))
      /\ (forall id, zero_on_error (@nil Certificate)
                       (PostgresCertificateRepo.FindUserCertificates ctx id))
      /\ (forall courseID userID,
             zero_on_error (zero : Certificate)
               (PostgresCertificateRepo.FindUserCourseCertificate
                  ctx courseID userID))
      /\ (forall cert : Certificate,
             zero_on_error zero (PostgresCertificateRepo.Create ctx cert))).
Proof.
  repeat match goal with
         | |- _ /\ _ => split
         end; intros; solve_zero.
Qed.
End ZeroValues.

(** ** A read-back that fails *)








(** ** The further properties at concrete inputs *)

(** [FindAll] of reviews on the campus store, and of users on a store with
    no user. *)
Lemma find_all_returns_every_row_witness :
  ctxErr Live = None
  /\ quiet 1 campus0 = true
  /\ PostgresReviewRepo.FindAll (codes := postgres_codes)
       (reviewSchema := row_entity) Live campus0
     = (([review1; review2], None), campus0)
  /\ PostgresUserRepo.FindAll (codes := postgres_codes)
       (userSchema := row_entity) Live world0
     = (([], None), world0).
Proof.
  destruct (find_all_returns_every_row (codes := postgres_codes)
              (userSchema := row_entity) (schoolSchema := row_entity)
              (reviewSchema := row_entity) (certificateSchema := row_entity))
    as (Huser & _ & Hreview & _).
  split; [reflexivity|]. split; [reflexivity|]. split.
  - exact (Hreview Live campus0 eq_refl eq_refl).
  - exact (Huser Live world0 eq_refl eq_refl).
Defined.

(** The reviews of user [u1]. *)
Lemma finders_by_foreign_key_witness :
  ctxErr Live = None
  /\ quiet 1 campus0 = true
  /\ PostgresReviewRepo.FindUserReviews (codes := postgres_codes)
       (reviewSchema := row_entity) Live "u1" campus0
     = (([review1], None), campus0).
Proof.
  destruct (finders_by_foreign_key (codes := postgres_codes)
              (schoolSchema := row_entity) (courseSchema := row_entity)
              (reviewSchema := row_entity) (certificateSchema := row_entity))
    as (_ & _ & Hreviews & _).
  split; [reflexivity|]. split; [reflexivity|].
  exact (Hreviews Live "u1" campus0 eq_refl eq_refl).
Defined.

(** Finding user [u3]. *)
Lemma find_by_id_of_present_row_witness :
  ctxErr Live = None
  /\ quiet 1 campus0 = true
  /\ row_by_id (tables campus0) "public.user" "u3" = Some ann
  /\ PostgresUserRepo.FindByID (codes := postgres_codes)
       (userSchema := row_entity) Live "u3" campus0
     = ((ann, None), campus0).
Proof.
  split; [reflexivity|]. split; [reflexivity|]. split; [reflexivity|].
  exact (proj1 (proj1 (find_by_id_of_present_row (codes := postgres_codes)
                         (userSchema := row_entity)
                         (schoolSchema := row_entity)
                         (reviewSchema := row_entity)
                         (certificateSchema := row_entity))
                  Live "u3" campus0 ann eq_refl eq_refl eq_refl)).
Defined.

(** Ann's credentials, right and wrong. *)
Lemma finders_by_key_witness :
  ctxErr Live = None
  /\ quiet 1 campus0 = true
  /\ PostgresUserRepo.FindByCredentials (codes := postgres_codes)
       (userSchema := row_entity) Live "ann@x.com" "secret" campus0
     = ((ann, None), campus0)
  /\ PostgresUserRepo.FindByCredentials (codes := postgres_codes)
       (userSchema := row_entity) Live "ann@x.com" "wrong" campus0
     = (([], Some (Wrap ErrNotExist "sql: no rows in result set")), campus0).
Proof.
  destruct (finders_by_key (codes := postgres_codes)
              (userSchema := row_entity) (certificateSchema := row_entity))
    as (_ & Hcred & _).
  split; [reflexivity|]. split; [reflexivity|]. split.
  - exact (Hcred Live "ann@x.com" "secret" campus0 eq_refl eq_refl).
  - exact (Hcred Live "ann@x.com" "wrong" campus0 eq_refl eq_refl).
Defined.

(** The row behind Ann's credentials. *)
Lemma credentials_are_checked_witness :
  PostgresUserRepo.FindByCredentials (codes := postgres_codes)
    (userSchema := row_entity) Live "ann@x.com" "secret" campus0
  = ((ann, None), campus0)
  /\ exists r,
      In r (rows_of campus "public.user")
      /\ col "email" r = "ann@x.com" /\ col "password" r = "secret"
      /\ ann = r.
Proof.
  split; [reflexivity|].
  exact (proj2 (credentials_are_checked (codes := postgres_codes)
                  (userSchema := row_entity)
                  Live "ann@x.com" "secret" campus0 ann campus0 eq_refl)).
Defined.

(** Ann's name and surname. *)
Lemma find_user_info_of_row_witness :
  ctxErr Live = None
  /\ quiet 1 campus0 = true
  /\ PostgresUserRepo.FindUserInfo (codes := postgres_codes) Live "u3" campus0
     = (({| Name := "Ann"; Surname := "Lee" |}, None), campus0).
Proof.
  split; [reflexivity|]. split; [reflexivity|].
  exact (find_user_info_of_row (codes := postgres_codes)
           Live "u3" campus0 eq_refl eq_refl).
Defined.

(** User [u1] teaches at school [s1]; Ann does not. *)
Lemma is_school_teacher_reads_membership_witness :
  ctxErr Live = None
  /\ quiet 1 campus0 = true
  /\ PostgresSchoolRepo.IsSchoolTeacher (codes := postgres_codes)
       Live "s1" "u1" campus0 = ((true, None), campus0)
  /\ PostgresSchoolRepo.IsSchoolTeacher (codes := postgres_codes)
       Live "s1" "u3" campus0 = ((false, None), campus0).
Proof.
  split; [reflexivity|]. split; [reflexivity|]. split.
  - exact (is_school_teacher_reads_membership (codes := postgres_codes)
             Live "s1" "u1" campus0 eq_refl eq_refl).
  - exact (is_school_teacher_reads_membership (codes := postgres_codes)
             Live "s1" "u3" campus0 eq_refl eq_refl).
Defined.

(** Making Ann a teacher of school [s1]. *)
Lemma add_then_is_school_teacher_witness :
  ctxErr Live = None
  /\ quiet 2 campus0 = true
  /\ is_member (tables campus0) "s1" "u3" = false
  /\ exists w1,
      PostgresSchoolRepo.AddSchoolTeacher (codes := postgres_codes)
        Live "s1" "u3" campus0 = (None, w1)
      /\ PostgresSchoolRepo.IsSchoolTeacher (codes := postgres_codes)
           Live "s1" "u3" w1 = ((true, None), after 2 (tables w1) campus0)
      /\ (forall s t,
             (s, t) <> ("s1", "u3") ->
             is_member (tables w1) s t = is_member (tables campus0) s t).
Proof.
  split; [reflexivity|]. split; [reflexivity|]. split; [reflexivity|].
  exact (add_then_is_school_teacher (codes := postgres_codes)
           Live "s1" "u3" campus0 eq_refl eq_refl eq_refl).
Defined.

(** The teachers of school [s1]. *)
Lemma find_school_teachers_lists_members_witness :
  ctxErr Live = None
  /\ quiet 1 campus0 = true
  /\ exists us,
      PostgresSchoolRepo.FindSchoolTeachers (codes := postgres_codes)
        (userSchema := row_entity) Live "s1" campus0
      = ((us, None), campus0)
      /\ (forall u,
             In u us
             <-> In u (rows_of campus "public.user")
                 /\ has_row campus "public.school" "s1" = true
                 /\ teaches campus "s1" u).
Proof.
  split; [reflexivity|]. split; [reflexivity|].
  destruct (find_school_teachers_lists_members (codes := postgres_codes)
              (userSchema := row_entity) Live "s1" campus0 eq_refl eq_refl)
    as (us & Hfind & Hin).
  exists us. split; [|exact Hin].
  rewrite Hfind. cbn [ToDomain row_entity]. rewrite map_id. reflexivity.
Defined.

(** Deleting user [u1], then looking for [u1]. *)
Lemma delete_then_find_by_id_witness :
  ctxErr Live = None
  /\ quiet 2 campus0 = true
  /\ exists w1,
      PostgresUserRepo.Delete (codes := postgres_codes) Live "u1" campus0
      = (None, w1)
      /\ PostgresUserRepo.FindByID (codes := postgres_codes)
           (userSchema := row_entity) Live "u1" w1
         = (([], Some (Wrap ErrNotExist "sql: no rows in result set")),
            after 2 (tables w1) campus0)
      /\ (forall id', id' <> "u1" ->
          row_by_id (tables w1) "public.user" id'
          = row_by_id campus "public.user" id').
Proof.
  split; [reflexivity|]. split; [reflexivity|].
  exact (proj1 (delete_then_find_by_id (codes := postgres_codes)
                  (userSchema := row_entity) (schoolSchema := row_entity))
           Live "u1" campus0 eq_refl eq_refl).
Defined.


(** The certificate repository's [Create] on an INSERT failed with the
    enumerated-value code. *)
Lemma errors_within_contract_witness :
  unclassified (CertificateCreate (User := Row) (School := Row)
                  (Review := Row) (Certificate := Row) user1) = false
  /\ fst (call_error (codes := postgres_codes) (userSchema := row_entity)
            (schoolSchema := row_entity) (courseSchema := row_entity)
            (reviewSchema := row_entity) (certificateSchema := row_entity)
            Live (CertificateCreate user1) (failing enum_error store0))
     = Some (Wrap ErrEnumValueError (Error enum_error))
  /\ exists k m,
      Wrap ErrEnumValueError (Error enum_error) = Wrap k m
      /\ In k [ErrDuplicate; ErrEnumValueError; ErrPersistenceFailed;
               ErrNotExist].
Proof.
  split; [reflexivity|]. split; [reflexivity|].
  exact (errors_within_contract (codes := postgres_codes)
           (userSchema := row_entity) (schoolSchema := row_entity)
           (courseSchema := row_entity) (reviewSchema := row_entity)
           (certificateSchema := row_entity)
           Live (CertificateCreate user1) (failing enum_error store0) _
           eq_refl eq_refl).
Defined.

(** Deleting user [u1] leaves the reviews in place. *)
Lemma writes_stay_in_their_relation_witness :
  touched (UserDelete (User := Row) (School := Row) (Review := Row)
             (Certificate := Row) "u1") <> Some "public.review"
  /\ rows_of
       (tables (snd (call_error (codes := postgres_codes)
                       (userSchema := row_entity)
                       (schoolSchema := row_entity)
                       (courseSchema := row_entity)
                       (reviewSchema := row_entity)
                       (certificateSchema := row_entity)
                       Live (UserDelete "u1") campus0))) "public.review"
     = [review1; review2].
Proof.
  assert (touched (UserDelete (User := Row) (School := Row) (Review := Row)
                     (Certificate := Row) "u1") <> Some "public.review")
    as Hne by discriminate.
  split; [exact Hne|].
  exact (writes_stay_in_their_relation (codes := postgres_codes)
           (userSchema := row_entity) (schoolSchema := row_entity)
           (courseSchema := row_entity) (reviewSchema := row_entity)
           (certificateSchema := row_entity)
           Live (UserDelete "u1") "public.review" Hne campus0).
Defined.

(** [FindByID] under a cancelled context. *)
Lemma error_comes_with_zero_value_witness :
  snd (fst (PostgresUserRepo.FindByID (codes := postgres_codes)
              (userSchema := row_entity) CancelledCtx "u3" campus0)) <> None
  /\ fst (fst (PostgresUserRepo.FindByID (codes := postgres_codes)
                 (userSchema := row_entity) CancelledCtx "u3" campus0)) = [].
Proof.
  assert (snd (fst (PostgresUserRepo.FindByID (codes := postgres_codes)
                      (userSchema := row_entity) CancelledCtx "u3" campus0))
          <> None) as Hne by discriminate.
  split; [exact Hne|].
  destruct (error_comes_with_zero_value (codes := postgres_codes)
              (userSchema := row_entity) (schoolSchema := row_entity)
              (courseSchema := row_entity) (reviewSchema := row_entity)
              (certificateSchema := row_entity) CancelledCtx)
    as ((_ & Hfind & _) & _).
  exact (Hfind "u3" campus0 Hne).
Defined.

